(** * Issue tracker: validation schemas and HTTP routes

    A shallow embedding of [shared/schema.ts] (the drizzle table
    [issues] and the zod schemas derived from it) and of
    [server/routes.ts] (the Express handlers registered by
    [registerRoutes]), with the properties of the issue API stated and
    proved over it.

    Conventions of the embedding.  A JavaScript string is a [string],
    one character for one code unit, so that [String.length] is the
    [length] zod compares with a maximum.  A point in time is a [Z].
    A handler is a function from the world before the request to its
    result and the world after it; an exception carries the world
    reached when it was thrown, as no effect of JavaScript is undone by
    a [throw].  The modules the routes import but the sources do not
    contain ([./storage], [./replitAuth], [./services/googleSheets])
    enter the handlers through the interfaces [IStorage] and [ISheets]
    and through [isAuthenticated]; what is known of them comes from the
    specification and is marked as such. *)

From Stdlib Require Import String Ascii List ZArith Bool Lia.
Import ListNotations.

Set Warnings "-register-all".

Local Open Scope string_scope.
Local Open Scope list_scope.

(** ** JavaScript values

    What a request body, a validated object or a response body is made
    of.  [JDate] stands for a [Date] instance (milliseconds since the
    epoch); a body produced by [express.json()] never contains one.  An
    object is the list of its own properties; a property that is not
    listed reads as [undefined], written [None] below. *)

Inductive jsval : Type :=
| JNull
| JBool (b : bool)
| JNum (n : Z)
| JStr (s : string)
| JDate (t : Z)
| JArr (items : list jsval)
| JObj (props : list (string * jsval)).

Definition jsobject := list (string * jsval).

(** [data[key]]: the first property named [key]. *)
Fixpoint lookup (key : string) (o : jsobject) : option jsval :=
  match o with
  | [] => None
  | (k, v) :: rest => if String.eqb k key then Some v else lookup key rest
  end.

Definition keys (o : jsobject) : list string := map fst o.

Definition mem (k : string) (ks : list string) : bool :=
  existsb (String.eqb k) ks.

(** The object without the properties named in [ks]. *)
Definition without (ks : list string) (o : jsobject) : jsobject :=
  filter (fun p => negb (mem (fst p) ks)) o.

(** [no_key k v]: no object inside [v] has a property named [k]. *)
Fixpoint no_key (k : string) (v : jsval) : bool :=
  match v with
  | JArr items => forallb (no_key k) items
  | JObj props =>
      forallb (fun p => negb (String.eqb (fst p) k) && no_key k (snd p)) props
  | _ => true
  end.

(** ** drizzle-orm column builders ([drizzle-orm/pg-core]) *)

Inductive dataType : Type :=
| PgUUID
| PgText
| PgVarchar (length : option nat)
| PgTimestamp.

Record column : Type := mkColumn {
  columnType : dataType;
  notNullFlag : bool;
  hasDefault : bool;
  isPrimary : bool
}.

Definition uuid : column := mkColumn PgUUID false false false.
Definition text : column := mkColumn PgText false false false.
Definition varchar (length : option nat) : column :=
  mkColumn (PgVarchar length) false false false.
Definition timestamp : column := mkColumn PgTimestamp false false false.

Definition notNull (c : column) : column :=
  mkColumn (columnType c) true (hasDefault c) (isPrimary c).
(** [primaryKey()] also marks the column not null. *)
Definition primaryKey (c : column) : column :=
  mkColumn (columnType c) true (hasDefault c) true.
Definition default (c : column) : column :=
  mkColumn (columnType c) (notNullFlag c) true (isPrimary c).
Definition defaultNow (c : column) : column := default c.

Definition pgTable := list (string * column).

(** The [issues] table of [shared/schema.ts], keyed by property name. *)
Definition issues : pgTable :=
  [ ("id", default (primaryKey uuid));
    ("title", notNull text);
    ("type", notNull (varchar (Some 50)));
    ("description", notNull text);
    ("impact", notNull (varchar (Some 20)));
    ("status", notNull (varchar (Some 20)));
    ("expectedFixDate", timestamp);
    ("createdBy", varchar None);
    ("updatedBy", varchar None);
    ("createdAt", defaultNow timestamp);
    ("updatedAt", defaultNow timestamp) ].

(** ** zod schemas *)

Inductive ztype : Type :=
| ZString (max : option nat)
| ZUuid
| ZDate.

Record zfield : Type := mkField {
  ztyp : ztype;
  znullable : bool;
  zoptional : bool
}.

Definition zobject := list (string * zfield).

Inductive zcode : Type :=
| invalid_type
| invalid_string
| too_big.

(** One entry of [ZodError.errors]: the path of the field and the code. *)
Definition zissue : Type := (list string * zcode)%type.

Inductive exn : Type :=
| ZodError (errors : list zissue)
| Error (message : string).

Inductive outcome (A : Type) : Type :=
| Ret (a : A)
| Throw (e : exn).
Arguments Ret {A} a.
Arguments Throw {A} e.

(** The pattern of [z.string().uuid()]: 8-4-4-4-12 hexadecimal digits. *)
Definition is_hex (c : ascii) : bool :=
  let n := nat_of_ascii c in
  (Nat.leb 48 n && Nat.leb n 57) || (Nat.leb 65 n && Nat.leb n 70)
  || (Nat.leb 97 n && Nat.leb n 102).

Fixpoint uuid_chars (i : nat) (s : string) : bool :=
  match s with
  | EmptyString => Nat.eqb i 36
  | String c rest =>
      (if existsb (Nat.eqb i) [8; 13; 18; 23]
       then Ascii.eqb c "-" else is_hex c)
      && uuid_chars (S i) rest
  end.

Definition is_uuid (s : string) : bool := uuid_chars 0 s.

(** What a field validator answers for [data[key]]. *)
Inductive checked : Type :=
| Undefined
| Value (v : jsval)
| Invalid (code : zcode).

Definition check_type (t : ztype) (v : jsval) : checked :=
  match t, v with
  | ZString None, JStr s => Value v
  | ZString (Some n), JStr s =>
      if Nat.leb (String.length s) n then Value v else Invalid too_big
  | ZUuid, JStr s => if is_uuid s then Value v else Invalid invalid_string
  | ZDate, JDate _ => Value v
  | _, _ => Invalid invalid_type
  end.

(** [.optional()] lets [undefined] through, [.nullable()] lets [null]
    through, anything else goes to the inner type. *)
Definition check_field (f : zfield) (x : option jsval) : checked :=
  match x with
  | None => if zoptional f then Undefined else Invalid invalid_type
  | Some JNull => if znullable f then Value JNull else check_type (ztyp f) JNull
  | Some v => check_type (ztyp f) v
  end.

(** The object parser: every key of the shape is validated against
    [data[key]]; keys of the input that the shape does not know are
    dropped (zod's default [strip] mode); a key whose value is
    [undefined] is not set in the result; all issues are collected. *)
Fixpoint parse_shape (shape : zobject) (data : jsobject)
  : jsobject * list zissue :=
  match shape with
  | [] => ([], [])
  | (key, f) :: rest =>
      let (obj, errs) := parse_shape rest data in
      match check_field f (lookup key data) with
      | Undefined => (obj, errs)
      | Value v => ((key, v) :: obj, errs)
      | Invalid code => (obj, ([key], code) :: errs)
      end
  end.

Definition parse (shape : zobject) (input : jsval) : outcome jsobject :=
  match input with
  | JObj data =>
      match parse_shape shape data with
      | (obj, []) => Ret obj
      | (_, errs) => Throw (ZodError errs)
      end
  | _ => Throw (ZodError [([], invalid_type)])
  end.

(** ** drizzle-zod: [createInsertSchema] *)

Definition columnToSchema (c : column) : ztype :=
  match columnType c with
  | PgUUID => ZUuid
  | PgText => ZString None
  | PgVarchar length => ZString length
  | PgTimestamp => ZDate
  end.

(** A nullable column is [.nullable().optional()], a not-null column
    with a default is [.optional()], any other column is required. *)
Definition insertField (c : column) : zfield :=
  if negb (notNullFlag c) then mkField (columnToSchema c) true true
  else if hasDefault c then mkField (columnToSchema c) false true
  else mkField (columnToSchema c) false false.

Definition createInsertSchema (t : pgTable) : zobject :=
  map (fun p => (fst p, insertField (snd p))) t.

Definition omit (mask : list string) (s : zobject) : zobject :=
  filter (fun p => negb (mem (fst p) mask)) s.

Definition partial (s : zobject) : zobject :=
  map (fun p => (fst p, mkField (ztyp (snd p)) (znullable (snd p)) true)) s.

Definition insertIssueSchema : zobject :=
  omit ["id"; "createdBy"; "updatedBy"; "createdAt"; "updatedAt"]
       (createInsertSchema issues).

Definition updateIssueSchema : zobject :=
  partial (omit ["createdBy"; "createdAt"; "updatedBy"; "updatedAt"]
                (createInsertSchema issues)).

(** ** Rows of the tables ([$inferSelect]) *)

Module Issue.
Record t : Type := mk {
  id : string;
  title : string;
  type : string;
  description : string;
  impact : string;
  status : string;
  expectedFixDate : option Z;
  createdBy : option string;
  updatedBy : option string;
  createdAt : option Z;
  updatedAt : option Z
}.
End Issue.

Module User.
Record t : Type := mk {
  id : string;
  email : option string;
  firstName : option string;
  lastName : option string;
  profileImageUrl : option string;
  createdAt : option Z;
  updatedAt : option Z
}.
End User.

Definition nullable_str (x : option string) : jsval :=
  match x with Some s => JStr s | None => JNull end.

Definition nullable_date (x : option Z) : jsval :=
  match x with Some t => JDate t | None => JNull end.

(** What [res.json(issue)] sends for a full row. *)
Definition issue_json (issue : Issue.t) : jsval :=
  JObj [ ("id", JStr (Issue.id issue));
         ("title", JStr (Issue.title issue));
         ("type", JStr (Issue.type issue));
         ("description", JStr (Issue.description issue));
         ("impact", JStr (Issue.impact issue));
         ("status", JStr (Issue.status issue));
         ("expectedFixDate", nullable_date (Issue.expectedFixDate issue));
         ("createdBy", nullable_str (Issue.createdBy issue));
         ("updatedBy", nullable_str (Issue.updatedBy issue));
         ("createdAt", nullable_date (Issue.createdAt issue));
         ("updatedAt", nullable_date (Issue.updatedAt issue)) ].

Definition user_json (user : User.t) : jsval :=
  JObj [ ("id", JStr (User.id user));
         ("email", nullable_str (User.email user));
         ("firstName", nullable_str (User.firstName user));
         ("lastName", nullable_str (User.lastName user));
         ("profileImageUrl", nullable_str (User.profileImageUrl user));
         ("createdAt", nullable_date (User.createdAt user));
         ("updatedAt", nullable_date (User.updatedAt user)) ].

(** The object literal the two public routes build from a row. *)
Definition publicIssue (issue : Issue.t) : jsval :=
  JObj [ ("id", JStr (Issue.id issue));
         ("title", JStr (Issue.title issue));
         ("type", JStr (Issue.type issue));
         ("description", JStr (Issue.description issue));
         ("impact", JStr (Issue.impact issue));
         ("status", JStr (Issue.status issue));
         ("expectedFixDate", nullable_date (Issue.expectedFixDate issue));
         ("createdAt", nullable_date (Issue.createdAt issue));
         ("updatedAt", nullable_date (Issue.updatedAt issue)) ].

Definition whitelist : list string :=
  [ "id"; "title"; "type"; "description"; "impact"; "status";
    "expectedFixDate"; "createdAt"; "updatedAt" ].

(** ** Requests, responses and the collaborators of the routes *)

Record Filters : Type := mkFilters {
  f_status : option string;
  f_type : option string;
  f_search : option string
}.

Record Request : Type := mkRequest {
  cookie : option string;            (* the session id sent by the client *)
  user : option string;              (* [req.user.claims.sub], set by the auth gate *)
  query : list (string * string);    (* [req.query] *)
  params_id : string;                (* [req.params.id] *)
  body : jsval                       (* [req.body] *)
}.

Record Response : Type := mkResponse {
  statusCode : nat;
  payload : option jsval
}.

Inductive operation : Type := create | update | delete.

(** The calls a handler makes to its collaborators, with their
    arguments, in the order they are made. *)
Inductive call : Type :=
| CGetUser (id : string)
| CGetAllIssues (filters : Filters)
| CGetIssue (id : string)
| CCreateIssue (data : jsobject) (userId : string)
| CUpdateIssue (id : string) (data : jsobject) (userId : string)
| CDeleteIssue (id : string)
| CSync (issue : Issue.t) (op : operation).

(** An operation of a collaborator: it reads the time, works on the
    collaborator's own state, and returns or throws. *)
Definition action (S A : Type) : Type := Z -> S -> outcome A * S.

(** The interface [storage] implements ([./storage]). *)
Record IStorage (DB : Type) : Type := mkStorage {
  getUser : string -> action DB (option User.t);
  getIssue : string -> action DB (option Issue.t);
  getAllIssues : Filters -> action DB (list Issue.t);
  createIssue : jsobject -> string -> action DB Issue.t;
  updateIssue : string -> jsobject -> string -> action DB (option Issue.t);
  deleteIssue : string -> action DB bool
}.
Arguments getUser {DB}.
Arguments getIssue {DB}.
Arguments getAllIssues {DB}.
Arguments createIssue {DB}.
Arguments updateIssue {DB}.
Arguments deleteIssue {DB}.

(** The part of [googleSheetsService] the handlers use
    ([./services/googleSheets]). *)
Record ISheets (Sheet : Type) : Type := mkSheets {
  syncIssueToSheets : Issue.t -> operation -> action Sheet unit
}.
Arguments syncIssueToSheets {Sheet}.

(** A row of the [sessions] table: the session id, the subject of the
    claims kept in [sess], and the expiry. *)
Record Session : Type := mkSession {
  sid : string;
  sub : string;
  expire : Z
}.

Section Server.

Context {DB Sheet : Type}.
Variable storage : IStorage DB.
Variable googleSheetsService : ISheets Sheet.

(** Everything a request can read or change. *)
Record World : Type := mkWorld {
  db : DB;
  sheet : Sheet;
  sessions : list Session;
  clock : Z;
  console : list (string * exn);
  calls : list call
}.

(** *** The handler monad: state, and exceptions that keep the state *)

Definition M (A : Type) : Type := World -> outcome A * World.

Definition ret {A} (a : A) : M A := fun w => (Ret a, w).

Definition throw {A} (e : exn) : M A := fun w => (Throw e, w).

Definition bind {A B} (m : M A) (k : A -> M B) : M B :=
  fun w =>
    match m w with
    | (Ret a, w') => k a w'
    | (Throw e, w') => (Throw e, w')
    end.

Definition try_catch {A} (m : M A) (handler : exn -> M A) : M A :=
  fun w =>
    match m w with
    | (Ret a, w') => (Ret a, w')
    | (Throw e, w') => handler e w'
    end.

Definition lift {A} (r : outcome A) : M A := fun w => (r, w).

Definition console_error (msg : string) (e : exn) : M unit :=
  fun w =>
    (Ret tt, mkWorld (db w) (sheet w) (sessions w) (clock w)
                     (console w ++ [(msg, e)]) (calls w)).

(** [await storage.op(...)], recorded in [calls]. *)
Definition await_storage {A} (c : call) (op : action DB A) : M A :=
  fun w =>
    let (r, d) := op (clock w) (db w) in
    (r, mkWorld d (sheet w) (sessions w) (clock w) (console w)
                (calls w ++ [c])).

(** [await googleSheetsService.syncIssueToSheets(issue, op)]. *)
Definition await_sync (issue : Issue.t) (op : operation) : M unit :=
  fun w =>
    let (r, s) := syncIssueToSheets googleSheetsService issue op
                    (clock w) (sheet w) in
    (r, mkWorld (db w) s (sessions w) (clock w) (console w)
                (calls w ++ [CSync issue op])).

End Server.

Arguments World : clear implicits.
Arguments M : clear implicits.

Declare Scope handler_scope.
Delimit Scope handler_scope with handler.
Notation "x <- m ;; k" := (bind m (fun x => k))
  (at level 100, m at next level, right associativity) : handler_scope.
Notation "m ;;; k" := (bind m (fun _ => k))
  (at level 100, right associativity) : handler_scope.
Local Open Scope handler_scope.

(** ** Responses *)

Definition json (code : nat) (v : jsval) : Response := mkResponse code (Some v).

Definition message (msg : string) : jsval := JObj [("message", JStr msg)].

Definition code_name (c : zcode) : string :=
  match c with
  | invalid_type => "invalid_type"
  | invalid_string => "invalid_string"
  | too_big => "too_big"
  end.

(** [error.errors] as it is sent in a 400 response. *)
Definition errors_json (errors : list zissue) : jsval :=
  JArr (map (fun e => JObj [("code", JStr (code_name (snd e)));
                            ("path", JArr (map JStr (fst e)))]) errors).

Definition validation_error (errors : list zissue) : Response :=
  json 400 (JObj [("message", JStr "Validation error");
                  ("errors", errors_json errors)]).

Definition not_found : Response := json 404 (message "Issue not found").

(** ** The auth gate ([./replitAuth]) *)

(** Modelled from the spec: [./replitAuth] is not among the sources.
    The session store entry the inbound session id names, if any. *)
Definition find_session (sessions : list Session) (id : string)
  : option Session :=
  find (fun s => String.eqb (sid s) id) sessions.

(** Modelled from the spec: [./replitAuth] is not among the sources.
    The gate validates the inbound session against the session store: a
    missing session, one the store does not know, or an expired one is
    a failure; otherwise the subject of the session is authenticated. *)
Definition session_subject (sessions : list Session) (now : Z)
                           (cookie : option string) : option string :=
  match cookie with
  | None => None
  | Some id =>
      match find_session sessions id with
      | None => None
      | Some s => if (now <? expire s)%Z then Some (sub s) else None
      end
  end.

(** Modelled from the spec: [./replitAuth] is not among the sources.
    The authentication-failure response ([AuthError], 401). *)
Definition unauthorized : Response := json 401 (message "Unauthorized").

Definition with_user (req : Request) (subject : string) : Request :=
  mkRequest (cookie req) (Some subject) (query req) (params_id req) (body req).

Definition with_cookie (req : Request) (c : option string) : Request :=
  mkRequest c (user req) (query req) (params_id req) (body req).

Section Routes.

Context {DB Sheet : Type}.
Variable storage : IStorage DB.
Variable googleSheetsService : ISheets Sheet.

Local Abbreviation M := (M DB Sheet).
Local Abbreviation World := (World DB Sheet).

Definition Handler : Type := Request -> M Response.
Definition Middleware : Type := Request -> Handler -> M Response.

(** Modelled from the spec: [isAuthenticated] of [./replitAuth] is not
    among the sources.  On success the authenticated subject is exposed
    to the next handler; on failure the request is short-circuited with
    the authentication-failure response. *)
Definition isAuthenticated : Middleware :=
  fun req next w =>
    match session_subject (sessions w) (clock w) (cookie req) with
    | Some subject => next (with_user req subject) w
    | None => (Ret unauthorized, w)
    end.

(** [req.user.claims.sub]: a [TypeError] when no user is attached. *)
Definition claims_sub (req : Request) : M string :=
  match user req with
  | Some subject => ret subject
  | None => throw (Error "TypeError")
  end.

(** [app.get('/api/auth/user', isAuthenticated, ...)] *)
Definition get_auth_user : Handler := fun req =>
  try_catch
    (userId <- claims_sub req ;;
     user <- await_storage (CGetUser userId) (getUser storage userId) ;;
     ret (mkResponse 200 (option_map user_json user)))
    (fun error =>
       console_error "Error fetching user:" error ;;;
       ret (json 500 (message "Failed to fetch user"))).

(** [app.get('/api/issues', ...)] *)
Definition get_issues : Handler := fun req =>
  try_catch
    (let filters := mkFilters (option_map snd (find (fun p => String.eqb (fst p) "status") (query req)))
                              (option_map snd (find (fun p => String.eqb (fst p) "type") (query req)))
                              (option_map snd (find (fun p => String.eqb (fst p) "search") (query req))) in
     issues <- await_storage (CGetAllIssues filters)
                             (getAllIssues storage filters) ;;
     let publicIssues := map publicIssue issues in
     ret (json 200 (JArr publicIssues)))
    (fun error =>
       console_error "Error fetching issues:" error ;;;
       ret (json 500 (message "Failed to fetch issues"))).

(** [app.get('/api/issues/:id', ...)] *)
Definition get_issue : Handler := fun req =>
  try_catch
    (let id := params_id req in
     issue <- await_storage (CGetIssue id) (getIssue storage id) ;;
     match issue with
     | None => ret not_found
     | Some issue => ret (json 200 (publicIssue issue))
     end)
    (fun error =>
       console_error "Error fetching issue:" error ;;;
       ret (json 500 (message "Failed to fetch issue"))).

(** [app.post('/api/issues', isAuthenticated, ...)] *)
Definition post_issue : Handler := fun req =>
  try_catch
    (userId <- claims_sub req ;;
     validatedData <- lift (parse insertIssueSchema (body req)) ;;
     issue <- await_storage (CCreateIssue validatedData userId)
                            (createIssue storage validatedData userId) ;;
     await_sync googleSheetsService issue create ;;;
     ret (json 201 (issue_json issue)))
    (fun error =>
       match error with
       | ZodError errors => ret (validation_error errors)
       | _ =>
           console_error "Error creating issue:" error ;;;
           ret (json 500 (message "Failed to create issue"))
       end).

(** [app.put('/api/issues/:id', isAuthenticated, ...)] *)
Definition put_issue : Handler := fun req =>
  try_catch
    (let id := params_id req in
     userId <- claims_sub req ;;
     validatedData <- lift (parse updateIssueSchema (body req)) ;;
     issue <- await_storage (CUpdateIssue id validatedData userId)
                            (updateIssue storage id validatedData userId) ;;
     match issue with
     | None => ret not_found
     | Some issue =>
         await_sync googleSheetsService issue update ;;;
         ret (json 200 (issue_json issue))
     end)
    (fun error =>
       match error with
       | ZodError errors => ret (validation_error errors)
       | _ =>
           console_error "Error updating issue:" error ;;;
           ret (json 500 (message "Failed to update issue"))
       end).

(** [app.delete('/api/issues/:id', isAuthenticated, ...)] *)
Definition delete_issue : Handler := fun req =>
  try_catch
    (let id := params_id req in
     issue <- await_storage (CGetIssue id) (getIssue storage id) ;;
     match issue with
     | None => ret not_found
     | Some issue =>
         deleted <- await_storage (CDeleteIssue id)
                                  (deleteIssue storage id) ;;
         if negb deleted then ret not_found
         else
           await_sync googleSheetsService issue delete ;;;
           ret (mkResponse 204 None)
     end)
    (fun error =>
       console_error "Error deleting issue:" error ;;;
       ret (json 500 (message "Failed to delete issue"))).

(** *** [registerRoutes]

    The routes, by method and path.  [initializeSheet] and [setupAuth],
    awaited once before the routes are registered, are not part of the
    handling of a request. *)

Inductive endpoint : Type :=
| GET_auth_user
| GET_issues
| GET_issue
| POST_issues
| PUT_issue
| DELETE_issue.

Definition registerRoutes (e : endpoint) : list Middleware * Handler :=
  match e with
  | GET_auth_user => ([isAuthenticated], get_auth_user)
  | GET_issues => ([], get_issues)
  | GET_issue => ([], get_issue)
  | POST_issues => ([isAuthenticated], post_issue)
  | PUT_issue => ([isAuthenticated], put_issue)
  | DELETE_issue => ([isAuthenticated], delete_issue)
  end.

(** Express runs the middlewares of a route in order, then its handler. *)
Definition chain (route : list Middleware * Handler) : Handler :=
  fold_right (fun (m : Middleware) (next : Handler) => fun req => m req next)
             (snd route) (fst route).

Definition serve (e : endpoint) : Handler := chain (registerRoutes e).

End Routes.

(** ** The record store ([./storage]) *)

Module MemStorage.

(** Modelled from the spec: [./storage] is not among the sources.  The
    store holds the issue rows in insertion order. *)
Definition DB : Type := list Issue.t.

(** Modelled from the spec: [./storage] is not among the sources.  The
    rows an operation on [id] is about. *)
Definition has_id (id : string) (row : Issue.t) : bool :=
  String.eqb (Issue.id row) id.

(** Modelled from the spec: [./storage] is not among the sources.
    [getIssue(id) -> Issue | not-found]. *)
Definition getIssue (id : string) : action DB (option Issue.t) :=
  fun _ rows => (Ret (find (has_id id) rows), rows).

(** Modelled from the spec: [./storage] is not among the sources.  The
    value a text column takes from the partial data: the provided
    string, or the old value when the data provides none. *)
Definition set_string (key : string) (data : jsobject) (old : string)
  : string :=
  match lookup key data with
  | Some (JStr s) => s
  | _ => old
  end.

(** Modelled from the spec: [./storage] is not among the sources.  The
    same for a nullable text column, which [null] clears. *)
Definition set_nullable_string (key : string) (data : jsobject)
                               (old : option string) : option string :=
  match lookup key data with
  | Some (JStr s) => Some s
  | Some JNull => None
  | _ => old
  end.

(** Modelled from the spec: [./storage] is not among the sources.  The
    same for a nullable timestamp column. *)
Definition set_nullable_date (key : string) (data : jsobject)
                             (old : option Z) : option Z :=
  match lookup key data with
  | Some (JDate t) => Some t
  | Some JNull => None
  | _ => old
  end.

(** Modelled from the spec: [./storage] is not among the sources.
    "Merges only provided fields": a column the partial data provides
    takes the provided value, every other column keeps its own. *)
Definition merge (row : Issue.t) (data : jsobject) : Issue.t :=
  Issue.mk
    (set_string "id" data (Issue.id row))
    (set_string "title" data (Issue.title row))
    (set_string "type" data (Issue.type row))
    (set_string "description" data (Issue.description row))
    (set_string "impact" data (Issue.impact row))
    (set_string "status" data (Issue.status row))
    (set_nullable_date "expectedFixDate" data (Issue.expectedFixDate row))
    (set_nullable_string "createdBy" data (Issue.createdBy row))
    (set_nullable_string "updatedBy" data (Issue.updatedBy row))
    (set_nullable_date "createdAt" data (Issue.createdAt row))
    (set_nullable_date "updatedAt" data (Issue.updatedAt row)).

(** Modelled from the spec: [./storage] is not among the sources.
    "Sets [updatedBy=actorId], [updatedAt=now]". *)
Definition touch (actorId : string) (now : Z) (row : Issue.t) : Issue.t :=
  Issue.mk (Issue.id row) (Issue.title row) (Issue.type row)
           (Issue.description row) (Issue.impact row) (Issue.status row)
           (Issue.expectedFixDate row) (Issue.createdBy row)
           (Some actorId) (Issue.createdAt row) (Some now).

(** Modelled from the spec: [./storage] is not among the sources.
    [updateIssue(id, partialData, actorId) -> Issue | not-found]. *)
Definition updateIssue (id : string) (data : jsobject) (actorId : string)
  : action DB (option Issue.t) :=
  fun now rows =>
    match find (has_id id) rows with
    | None => (Ret None, rows)
    | Some row =>
        (Ret (Some (touch actorId now (merge row data))),
         map (fun r => if has_id id r
                       then touch actorId now (merge r data) else r) rows)
    end.

(** Modelled from the spec: [./storage] is not among the sources.
    [deleteIssue(id) -> boolean]: true if a record existed and was
    removed, false otherwise. *)
Definition deleteIssue (id : string) : action DB bool :=
  fun _ rows =>
    if existsb (has_id id) rows
    then (Ret true, filter (fun r => negb (has_id id r)) rows)
    else (Ret false, rows).

Section Storage.

(** The operations no property below depends on stay parameters. *)
Variable getUser : string -> action DB (option User.t).
Variable getAllIssues : Filters -> action DB (list Issue.t).
Variable createIssue : jsobject -> string -> action DB Issue.t.

(** Modelled from the spec: [./storage] is not among the sources.  The
    [storage] object the routes import. *)
Definition storage : IStorage DB :=
  mkStorage DB getUser getIssue getAllIssues createIssue
            updateIssue deleteIssue.

End Storage.

End MemStorage.

(** ** The spreadsheet mirror ([./services/googleSheets]) *)

Module Mirror.

(** Modelled from the spec: [./services/googleSheets] is not among the
    sources.  The mirror holds one row per issue id; [reachable] tells
    whether the spreadsheet service accepts a write; [failures] is the
    log of the synchronizations that failed. *)
Record Sheet : Type := mk {
  rows : list Issue.t;
  reachable : bool;
  failures : list (string * operation)
}.

(** Modelled from the spec: [./services/googleSheets] is not among the
    sources.  Upsert by id: the row of the issue is overwritten in
    place, or appended when the mirror has none. *)
Definition upsert (issue : Issue.t) (rs : list Issue.t) : list Issue.t :=
  if existsb (MemStorage.has_id (Issue.id issue)) rs
  then map (fun r => if MemStorage.has_id (Issue.id issue) r
                     then issue else r) rs
  else rs ++ [issue].

(** Modelled from the spec: [./services/googleSheets] is not among the
    sources.  Delete by id. *)
Definition remove (issue : Issue.t) (rs : list Issue.t) : list Issue.t :=
  filter (fun r => negb (MemStorage.has_id (Issue.id issue) r)) rs.

(** Modelled from the spec: [./services/googleSheets] is not among the
    sources.  [syncIssue(issue, operation) -> void], best effort: a
    failure is logged and never propagates past the mirror. *)
Definition syncIssueToSheets (issue : Issue.t) (op : operation)
  : action Sheet unit :=
  fun _ s =>
    if reachable s
    then (Ret tt,
          mk (match op with
              | delete => remove issue (rows s)
              | _ => upsert issue (rows s)
              end) true (failures s))
    else (Ret tt,
          mk (rows s) false (failures s ++ [(Issue.id issue, op)])).

(** Modelled from the spec: [./services/googleSheets] is not among the
    sources.  The [googleSheetsService] object the routes import. *)
Definition service : ISheets Sheet := mkSheets Sheet syncIssueToSheets.

End Mirror.

(** ** Vocabulary of the statements *)

(** The enumerations of the data model, as the comments of the [issues]
    table list them. *)
Definition type_values : list string := ["issue"; "feature-request"].
Definition impact_values : list string := ["Low"; "Medium"; "High"; "Critical"].
Definition status_values : list string := ["open"; "assigned"; "closed"].

(** The fields the server sets, which the creation shape omits. *)
Definition server_fields : list string :=
  ["id"; "createdBy"; "updatedBy"; "createdAt"; "updatedAt"].

Definition nonempty_text (x : option jsval) : bool :=
  match x with
  | Some (JStr s) => negb (String.eqb s "")
  | _ => false
  end.

Definition one_of (values : list string) (x : option jsval) : bool :=
  match x with
  | Some (JStr s) => mem s values
  | _ => false
  end.

Definition absent (x : option jsval) : bool :=
  match x with None => true | Some _ => false end.

Definition optional_date (x : option jsval) : bool :=
  match x with
  | None | Some JNull | Some (JDate _) => true
  | _ => false
  end.

(** A creation payload as the data model of the specification
    describes a valid one: non-empty title and description, type and
    impact in their enumerations, status in its enumeration or omitted,
    an optional expected fix date. *)
Definition spec_valid_creation (props : jsobject) : bool :=
  nonempty_text (lookup "title" props)
  && nonempty_text (lookup "description" props)
  && one_of type_values (lookup "type" props)
  && one_of impact_values (lookup "impact" props)
  && (absent (lookup "status" props)
      || one_of status_values (lookup "status" props))
  && optional_date (lookup "expectedFixDate" props).

Definition with_body (req : Request) (b : jsval) : Request :=
  mkRequest (cookie req) (user req) (query req) (params_id req) b.

(** The keys of an object, [None] for anything else. *)
Definition object_keys (v : jsval) : option (list string) :=
  match v with
  | JObj props => Some (keys props)
  | _ => None
  end.

(** What creation fixed on a row. *)
Definition created (row : Issue.t) : option string * option Z :=
  (Issue.createdBy row, Issue.createdAt row).

Definition at_time {DB Sheet} (t : Z) (w : World DB Sheet) : World DB Sheet :=
  mkWorld (db w) (sheet w) (sessions w) t (console w) (calls w).

(** The world a handler leaves: the store and the mirror in the given
    states, the given lines added to the console, the given calls made. *)
Definition after {DB Sheet} (w : World DB Sheet) (d : DB) (s : Sheet)
                 (log : list (string * exn)) (cs : list call)
  : World DB Sheet :=
  mkWorld d s (sessions w) (clock w) (console w ++ log) (calls w ++ cs).

(** The routes registered behind [isAuthenticated], and the public ones. *)
Definition protected : list endpoint :=
  [GET_auth_user; POST_issues; PUT_issue; DELETE_issue].

Definition public : list endpoint := [GET_issues; GET_issue].

(** A sequence of PUT requests, each served at its own time. *)
Fixpoint put_all {DB Sheet} (storage : IStorage DB) (sheets : ISheets Sheet)
                 (reqs : list (Z * Request)) (w : World DB Sheet)
  : World DB Sheet :=
  match reqs with
  | [] => w
  | (t, req) :: rest =>
      put_all storage sheets rest
              (snd (serve storage sheets PUT_issue req (at_time t w)))
  end.

(** ** Concrete stores, services and requests

    Used to run the routes on explicit inputs. *)

Module Sample.

Definition id1 : string := "123e4567-e89b-42d3-a456-426614174000".
Definition id2 : string := "9f1c2d3e-4b5a-4c6d-8e7f-0a1b2c3d4e5f".

Definition crash : Issue.t :=
  Issue.mk id1 "Crash on save" "issue" "The editor crashes" "High" "open"
           None (Some "u1") (Some "u1") (Some 1000%Z) (Some 1000%Z).

(** Stand-ins for the three operations of [./storage] that
    [MemStorage] leaves open: no user is known, the list ignores the
    filters, and creation stores the validated data under [id2]. *)
Definition getUser (id : string) : action MemStorage.DB (option User.t) :=
  fun _ rows => (Ret None, rows).

Definition getAllIssues (filters : Filters)
  : action MemStorage.DB (list Issue.t) :=
  fun _ rows => (Ret rows, rows).

Definition createIssue (data : jsobject) (userId : string)
  : action MemStorage.DB Issue.t :=
  fun now rows =>
    let row := MemStorage.merge
                 (Issue.mk id2 "" "" "" "" "" None (Some userId) (Some userId)
                           (Some now) (Some now)) data in
    (Ret row, rows ++ [row]).

Definition storage : IStorage MemStorage.DB :=
  MemStorage.storage getUser getAllIssues createIssue.

(** A spreadsheet service whose call throws. *)
Definition throwing : ISheets unit :=
  mkSheets unit (fun _ _ _ s => (Throw (Error "sheets unavailable"), s)).

Definition session1 : Session := mkSession "s1" "u1" 5000.

Definition sheet0 : Mirror.Sheet := Mirror.mk [crash] true [].

Definition world0 : World MemStorage.DB Mirror.Sheet :=
  mkWorld [crash] sheet0 [session1] 2000 [] [].

(** The same store in front of the throwing service. *)
Definition world1 : World MemStorage.DB unit :=
  mkWorld [crash] tt [session1] 2000 [] [].

Definition request (c : option string) (id : string) (b : jsval) : Request :=
  mkRequest c None [] id b.

(** The creation payload of the example scenario of the specification:
    no [status]. *)
Definition no_status : jsobject :=
  [ ("title", JStr "Crash on save"); ("type", JStr "issue");
    ("description", JStr "..."); ("impact", JStr "High") ].

Definition bogus_enums : jsobject :=
  [ ("title", JStr "Crash on save"); ("type", JStr "bogus");
    ("description", JStr "..."); ("impact", JStr "Enormous");
    ("status", JStr "whatever") ].

Definition empty_texts : jsobject :=
  [ ("title", JStr ""); ("type", JStr "issue"); ("description", JStr "");
    ("impact", JStr "High"); ("status", JStr "open") ].

Definition with_server_fields : jsobject :=
  [ ("id", JStr id1); ("createdBy", JStr "mallory");
    ("updatedBy", JStr "mallory"); ("createdAt", JNum 0);
    ("updatedAt", JNum 0);
    ("title", JStr "Crash on save"); ("type", JStr "issue");
    ("description", JStr "..."); ("impact", JStr "High");
    ("status", JStr "open") ].

End Sample.

(** ** Vocabulary of the further properties *)

(** A value as [JSON.parse] builds it: no [Date] anywhere inside. *)
Fixpoint is_json (v : jsval) : bool :=
  match v with
  | JDate _ => false
  | JArr items => forallb is_json items
  | JObj props => forallb (fun p => is_json (snd p)) props
  | _ => true
  end.

Definition is_string (x : option jsval) : bool :=
  match x with
  | Some (JStr _) => true
  | _ => false
  end.

Definition string_within (n : nat) (x : option jsval) : bool :=
  match x with
  | Some (JStr s) => Nat.leb (String.length s) n
  | _ => false
  end.

Definition uuid_string (x : option jsval) : bool :=
  match x with
  | Some (JStr s) => is_uuid s
  | _ => false
  end.

Definition if_present (p : option jsval -> bool) (x : option jsval) : bool :=
  match x with
  | None => true
  | Some _ => p x
  end.

(** The bodies the creation shape accepts, field by field. *)
Definition creation_shape_ok (d : jsobject) : bool :=
  is_string (lookup "title" d)
  && string_within 50 (lookup "type" d)
  && is_string (lookup "description" d)
  && string_within 20 (lookup "impact" d)
  && string_within 20 (lookup "status" d)
  && optional_date (lookup "expectedFixDate" d).

(** The bodies the update shape accepts, field by field. *)
Definition update_shape_ok (d : jsobject) : bool :=
  if_present uuid_string (lookup "id" d)
  && if_present is_string (lookup "title" d)
  && if_present (string_within 50) (lookup "type" d)
  && if_present is_string (lookup "description" d)
  && if_present (string_within 20) (lookup "impact" d)
  && if_present (string_within 20) (lookup "status" d)
  && optional_date (lookup "expectedFixDate" d).

(** The properties of [d] named in [ks], in the order of [ks]. *)
Definition pick (ks : list string) (d : jsobject) : jsobject :=
  flat_map (fun k => match lookup k d with
                     | Some v => [(k, v)]
                     | None => []
                     end) ks.

(** A field validator raises no issue. *)
Definition field_ok (f : zfield) (x : option jsval) : bool :=
  match check_field f x with
  | Invalid _ => false
  | _ => true
  end.

(** [req.query.name], [undefined] when the parameter is not given. *)
Definition query_param (name : string) (req : Request) : option string :=
  option_map snd (find (fun p => String.eqb (fst p) name) (query req)).

(** The [filters] object GET /api/issues builds. *)
Definition filters_of (req : Request) : Filters :=
  mkFilters (query_param "status" req) (query_param "type" req)
            (query_param "search" req).

(** What the [catch] of POST and PUT answers and logs for an error. *)
Definition caught (label msg : string) (e : exn)
  : Response * list (string * exn) :=
  match e with
  | ZodError errors => (validation_error errors, [])
  | _ => (json 500 (message msg), [(label, e)])
  end.

(** The handler a route registers. *)
Definition handler {DB Sheet : Type} (storage : IStorage DB)
           (sheets : ISheets Sheet) (e : endpoint) : Request -> M DB Sheet Response :=
  snd (registerRoutes storage sheets e).

(** The status codes the handler of a route can answer with. *)
Definition statuses (e : endpoint) : list nat :=
  match e with
  | GET_auth_user => [200; 500]
  | GET_issues => [200; 500]
  | GET_issue => [200; 404; 500]
  | POST_issues => [201; 400; 500]
  | PUT_issue => [200; 400; 404; 500]
  | DELETE_issue => [204; 404; 500]
  end.

(** The sequences of collaborator calls the handler of a route can
    make for the path parameter [id]. *)
Definition allowed (e : endpoint) (id : string) (cs : list call) : bool :=
  match e, cs with
  | GET_auth_user, [] => true
  | GET_auth_user, [CGetUser _] => true
  | GET_issues, [CGetAllIssues _] => true
  | GET_issue, [CGetIssue i] => String.eqb i id
  | POST_issues, [] => true
  | POST_issues, [CCreateIssue _ _] => true
  | POST_issues, [CCreateIssue _ _; CSync _ create] => true
  | PUT_issue, [] => true
  | PUT_issue, [CUpdateIssue i _ _] => String.eqb i id
  | PUT_issue, [CUpdateIssue i _ _; CSync _ update] => String.eqb i id
  | DELETE_issue, [CGetIssue i] => String.eqb i id
  | DELETE_issue, [CGetIssue i; CDeleteIssue j] =>
      String.eqb i id && String.eqb j id
  | DELETE_issue, [CGetIssue i; CDeleteIssue j; CSync _ delete] =>
      String.eqb i id && String.eqb j id
  | _, _ => false
  end.

Definition is_sync (c : call) : bool :=
  match c with
  | CSync _ _ => true
  | _ => false
  end.

(** The schema a mutating route validates its body against. *)
Definition schema_of (e : endpoint) : option zobject :=
  match e with
  | POST_issues => Some insertIssueSchema
  | PUT_issue => Some updateIssueSchema
  | _ => None
  end.

(** A store whose every operation throws [e], and a spreadsheet
    service that accepts every call. *)
Module Faulty.

Definition fails {A : Type} (e : exn) : action unit A :=
  fun _ s => (Throw e, s).

Definition storage (e : exn) : IStorage unit :=
  mkStorage unit (fun _ => fails e) (fun _ => fails e) (fun _ => fails e)
            (fun _ _ => fails e) (fun _ _ _ => fails e) (fun _ => fails e).

Definition sheets : ISheets unit :=
  mkSheets unit (fun _ _ _ s => (Ret tt, s)).

Definition world : World unit unit :=
  mkWorld tt tt [Sample.session1] 2000 [] [].

End Faulty.

(** *** The paths through the handlers

    [path storage sheets req w e resp w']: the handler of route [e],
    run on [req] in world [w], can answer [resp] and leave world [w'];
    one rule for each way through the handler.  [no_user] is the
    [TypeError] that reading [req.user.claims.sub] throws when no user
    is attached to the request. *)

Definition no_user : exn := Error "TypeError".

Section Paths.

Context {DB Sheet : Type}.
Variable storage : IStorage DB.
Variable sheets : ISheets Sheet.
Variable req : Request.
Variable w : World DB Sheet.

Local Abbreviation id := (params_id req).

Inductive path : endpoint -> Response -> World DB Sheet -> Prop :=
| path_user_unattached :
    user req = None ->
    path GET_auth_user (json 500 (message "Failed to fetch user"))
         (after w (db w) (sheet w) [("Error fetching user:", no_user)] [])
| path_user u found d :
    user req = Some u ->
    getUser storage u (clock w) (db w) = (Ret found, d) ->
    path GET_auth_user (mkResponse 200 (option_map user_json found))
         (after w d (sheet w) [] [CGetUser u])
| path_user_failed u e d :
    user req = Some u ->
    getUser storage u (clock w) (db w) = (Throw e, d) ->
    path GET_auth_user (json 500 (message "Failed to fetch user"))
         (after w d (sheet w) [("Error fetching user:", e)] [CGetUser u])
| path_list rows d :
    getAllIssues storage (filters_of req) (clock w) (db w) = (Ret rows, d) ->
    path GET_issues (json 200 (JArr (map publicIssue rows)))
         (after w d (sheet w) [] [CGetAllIssues (filters_of req)])
| path_list_failed e d :
    getAllIssues storage (filters_of req) (clock w) (db w) = (Throw e, d) ->
    path GET_issues (json 500 (message "Failed to fetch issues"))
         (after w d (sheet w) [("Error fetching issues:", e)]
                [CGetAllIssues (filters_of req)])
| path_get row d :
    getIssue storage id (clock w) (db w) = (Ret (Some row), d) ->
    path GET_issue (json 200 (publicIssue row))
         (after w d (sheet w) [] [CGetIssue id])
| path_get_missing d :
    getIssue storage id (clock w) (db w) = (Ret None, d) ->
    path GET_issue not_found (after w d (sheet w) [] [CGetIssue id])
| path_get_failed e d :
    getIssue storage id (clock w) (db w) = (Throw e, d) ->
    path GET_issue (json 500 (message "Failed to fetch issue"))
         (after w d (sheet w) [("Error fetching issue:", e)] [CGetIssue id])
| path_post_unattached :
    user req = None ->
    path POST_issues (json 500 (message "Failed to create issue"))
         (after w (db w) (sheet w) [("Error creating issue:", no_user)] [])
| path_post_invalid u errs :
    user req = Some u ->
    parse insertIssueSchema (body req) = Throw (ZodError errs) ->
    path POST_issues (validation_error errs) w
| path_post_store_failed u data e d :
    user req = Some u ->
    parse insertIssueSchema (body req) = Ret data ->
    createIssue storage data u (clock w) (db w) = (Throw e, d) ->
    path POST_issues
         (fst (caught "Error creating issue:" "Failed to create issue" e))
         (after w d (sheet w)
                (snd (caught "Error creating issue:"
                             "Failed to create issue" e))
                [CCreateIssue data u])
| path_post_created u data issue d s :
    user req = Some u ->
    parse insertIssueSchema (body req) = Ret data ->
    createIssue storage data u (clock w) (db w) = (Ret issue, d) ->
    syncIssueToSheets sheets issue create (clock w) (sheet w) = (Ret tt, s) ->
    path POST_issues (json 201 (issue_json issue))
         (after w d s [] [CCreateIssue data u; CSync issue create])
| path_post_sync_failed u data issue d e s :
    user req = Some u ->
    parse insertIssueSchema (body req) = Ret data ->
    createIssue storage data u (clock w) (db w) = (Ret issue, d) ->
    syncIssueToSheets sheets issue create (clock w) (sheet w) = (Throw e, s) ->
    path POST_issues
         (fst (caught "Error creating issue:" "Failed to create issue" e))
         (after w d s
                (snd (caught "Error creating issue:"
                             "Failed to create issue" e))
                [CCreateIssue data u; CSync issue create])
| path_put_unattached :
    user req = None ->
    path PUT_issue (json 500 (message "Failed to update issue"))
         (after w (db w) (sheet w) [("Error updating issue:", no_user)] [])
| path_put_invalid u errs :
    user req = Some u ->
    parse updateIssueSchema (body req) = Throw (ZodError errs) ->
    path PUT_issue (validation_error errs) w
| path_put_store_failed u data e d :
    user req = Some u ->
    parse updateIssueSchema (body req) = Ret data ->
    updateIssue storage id data u (clock w) (db w) = (Throw e, d) ->
    path PUT_issue
         (fst (caught "Error updating issue:" "Failed to update issue" e))
         (after w d (sheet w)
                (snd (caught "Error updating issue:"
                             "Failed to update issue" e))
                [CUpdateIssue id data u])
| path_put_missing u data d :
    user req = Some u ->
    parse updateIssueSchema (body req) = Ret data ->
    updateIssue storage id data u (clock w) (db w) = (Ret None, d) ->
    path PUT_issue not_found
         (after w d (sheet w) [] [CUpdateIssue id data u])
| path_put_updated u data issue d s :
    user req = Some u ->
    parse updateIssueSchema (body req) = Ret data ->
    updateIssue storage id data u (clock w) (db w) = (Ret (Some issue), d) ->
    syncIssueToSheets sheets issue update (clock w) (sheet w) = (Ret tt, s) ->
    path PUT_issue (json 200 (issue_json issue))
         (after w d s [] [CUpdateIssue id data u; CSync issue update])
| path_put_sync_failed u data issue d e s :
    user req = Some u ->
    parse updateIssueSchema (body req) = Ret data ->
    updateIssue storage id data u (clock w) (db w) = (Ret (Some issue), d) ->
    syncIssueToSheets sheets issue update (clock w) (sheet w) = (Throw e, s) ->
    path PUT_issue
         (fst (caught "Error updating issue:" "Failed to update issue" e))
         (after w d s
                (snd (caught "Error updating issue:"
                             "Failed to update issue" e))
                [CUpdateIssue id data u; CSync issue update])
| path_delete_fetch_failed e d :
    getIssue storage id (clock w) (db w) = (Throw e, d) ->
    path DELETE_issue (json 500 (message "Failed to delete issue"))
         (after w d (sheet w) [("Error deleting issue:", e)] [CGetIssue id])
| path_delete_missing d :
    getIssue storage id (clock w) (db w) = (Ret None, d) ->
    path DELETE_issue not_found (after w d (sheet w) [] [CGetIssue id])
| path_delete_failed issue d0 e d :
    getIssue storage id (clock w) (db w) = (Ret (Some issue), d0) ->
    deleteIssue storage id (clock w) d0 = (Throw e, d) ->
    path DELETE_issue (json 500 (message "Failed to delete issue"))
         (after w d (sheet w) [("Error deleting issue:", e)]
                [CGetIssue id; CDeleteIssue id])
| path_delete_vanished issue d0 d :
    getIssue storage id (clock w) (db w) = (Ret (Some issue), d0) ->
    deleteIssue storage id (clock w) d0 = (Ret false, d) ->
    path DELETE_issue not_found
         (after w d (sheet w) [] [CGetIssue id; CDeleteIssue id])
| path_delete_done issue d0 d s :
    getIssue storage id (clock w) (db w) = (Ret (Some issue), d0) ->
    deleteIssue storage id (clock w) d0 = (Ret true, d) ->
    syncIssueToSheets sheets issue delete (clock w) (sheet w) = (Ret tt, s) ->
    path DELETE_issue (mkResponse 204 None)
         (after w d s [] [CGetIssue id; CDeleteIssue id; CSync issue delete])
| path_delete_sync_failed issue d0 d e s :
    getIssue storage id (clock w) (db w) = (Ret (Some issue), d0) ->
    deleteIssue storage id (clock w) d0 = (Ret true, d) ->
    syncIssueToSheets sheets issue delete (clock w) (sheet w) = (Throw e, s) ->
    path DELETE_issue (json 500 (message "Failed to delete issue"))
         (after w d s [("Error deleting issue:", e)]
                [CGetIssue id; CDeleteIssue id; CSync issue delete]).

End Paths.

(** The operation a mutating route passes to the mirror. *)
Definition operation_of (e : endpoint) : option operation :=
  match e with
  | POST_issues => Some create
  | PUT_issue => Some update
  | DELETE_issue => Some delete
  | _ => None
  end.

Section Outcomes.

Context {DB Sheet : Type}.
Variable storage : IStorage DB.
Variable req : Request.
Variable w : World DB Sheet.

(** The body is valid for the user attached to the request, and the
    store operation of the route has returned the row [issue]. *)
Definition committed (e : endpoint) (issue : Issue.t) : Prop :=
  match e with
  | POST_issues =>
      exists u data d,
        user req = Some u
        /\ parse insertIssueSchema (body req) = Ret data
        /\ createIssue storage data u (clock w) (db w) = (Ret issue, d)
  | PUT_issue =>
      exists u data d,
        user req = Some u
        /\ parse updateIssueSchema (body req) = Ret data
        /\ updateIssue storage (params_id req) data u (clock w) (db w)
           = (Ret (Some issue), d)
  | DELETE_issue =>
      exists d0 d,
        getIssue storage (params_id req) (clock w) (db w)
        = (Ret (Some issue), d0)
        /\ deleteIssue storage (params_id req) (clock w) d0 = (Ret true, d)
  | _ => False
  end.

(** The store reports that the row the route is about does not exist. *)
Definition missing (e : endpoint) : Prop :=
  match e with
  | GET_issue =>
      exists d, getIssue storage (params_id req) (clock w) (db w)
                = (Ret None, d)
  | PUT_issue =>
      exists u data d,
        user req = Some u
        /\ parse updateIssueSchema (body req) = Ret data
        /\ updateIssue storage (params_id req) data u (clock w) (db w)
           = (Ret None, d)
  | DELETE_issue =>
      (exists d, getIssue storage (params_id req) (clock w) (db w)
                 = (Ret None, d))
      \/ (exists issue d0 d,
             getIssue storage (params_id req) (clock w) (db w)
             = (Ret (Some issue), d0)
             /\ deleteIssue storage (params_id req) (clock w) d0
                = (Ret false, d))
  | _ => False
  end.

(** Where the arguments of a collaborator call come from. *)
Definition provenance (e : endpoint) (c : call) : Prop :=
  match c with
  | CGetUser u => e = GET_auth_user /\ user req = Some u
  | CGetAllIssues filters => e = GET_issues /\ filters = filters_of req
  | CGetIssue i => (e = GET_issue \/ e = DELETE_issue) /\ i = params_id req
  | CCreateIssue data u =>
      e = POST_issues /\ user req = Some u
      /\ parse insertIssueSchema (body req) = Ret data
  | CUpdateIssue i data u =>
      e = PUT_issue /\ i = params_id req /\ user req = Some u
      /\ parse updateIssueSchema (body req) = Ret data
  | CDeleteIssue i => e = DELETE_issue /\ i = params_id req
  | CSync issue op => operation_of e = Some op
  end.

End Outcomes.

(** * Properties *)

(** ** Objects and the object parser *)

Lemma lookup_without (ks : list string) (o : jsobject) (k : string) :
  mem k ks = false -> lookup k (without ks o) = lookup k o.
Proof.
  intros Hk. induction o as [| [k' v] o IH]; simpl; [reflexivity |].
  destruct (mem k' ks) eqn:Hk'; simpl.
  - destruct (String.eqb k' k) eqn:E; [| exact IH].
    apply String.eqb_eq in E. subst k'. congruence.
  - now rewrite IH.
Qed.

Lemma lookup_absent (k : string) (o : jsobject) :
  ~ In k (keys o) -> lookup k o = None.
Proof.
  induction o as [| [k' v] o IH]; simpl; intros Hn; [reflexivity |].
  destruct (String.eqb k' k) eqn:E.
  - apply String.eqb_eq in E. tauto.
  - apply IH. tauto.
Qed.

Lemma parse_shape_ext (shape : zobject) (d1 d2 : jsobject) :
  (forall k, In k (map fst shape) -> lookup k d1 = lookup k d2) ->
  parse_shape shape d1 = parse_shape shape d2.
Proof.
  induction shape as [| [k f] shape IH]; simpl; intros H; [reflexivity |].
  rewrite IH by (intros; apply H; now right).
  rewrite (H k) by now left. reflexivity.
Qed.

Lemma parse_shape_keys (shape : zobject) (d : jsobject) (k : string) :
  In k (keys (fst (parse_shape shape d))) -> In k (map fst shape).
Proof.
  induction shape as [| [k0 f] shape IH]; simpl; [tauto |].
  destruct (parse_shape shape d) as [obj errs].
  destruct (check_field f (lookup k0 d)); simpl in *; intuition.
Qed.

Lemma parse_shape_issue (shape : zobject) (d : jsobject)
                        (path : list string) (c : zcode) :
  In (path, c) (snd (parse_shape shape d)) <->
  exists k f, path = [k] /\ In (k, f) shape
              /\ check_field f (lookup k d) = Invalid c.
Proof.
  induction shape as [| [k0 f0] shape IH]; simpl.
  - split; [tauto | intros (k & f & _ & [] & _)].
  - destruct (parse_shape shape d) as [obj errs] eqn:E. simpl in IH.
    destruct (check_field f0 (lookup k0 d)) eqn:C; simpl; rewrite ?IH.
    + split.
      * intros (k & f & ? & ? & ?). exists k, f. auto.
      * intros (k & f & ? & [Heq | Hin] & Hc); [| now exists k, f].
        inversion Heq; subst. congruence.
    + split.
      * intros (k & f & ? & ? & ?). exists k, f. auto.
      * intros (k & f & ? & [Heq | Hin] & Hc); [| now exists k, f].
        inversion Heq; subst. congruence.
    + split.
      * intros [Heq | (k & f & ? & ? & ?)].
        -- inversion Heq; subst. exists k0, f0. auto.
        -- exists k, f. auto.
      * intros (k & f & ? & [Heq | Hin] & Hc).
        -- inversion Heq; subst. left. congruence.
        -- right. now exists k, f.
Qed.

Lemma parse_shape_lookup (shape : zobject) (d : jsobject)
                         (k : string) (f : zfield) :
  NoDup (map fst shape) -> In (k, f) shape ->
  lookup k (fst (parse_shape shape d)) =
  match check_field f (lookup k d) with
  | Value v => Some v
  | _ => None
  end.
Proof.
  induction shape as [| [k0 f0] shape IH]; simpl; [tauto |].
  intros Hnd Hin. inversion Hnd as [| ? ? Hk0 Hnd']; subst.
  pose proof (parse_shape_keys shape d k0) as Hkeys.
  destruct (parse_shape shape d) as [obj errs] eqn:E. simpl in *.
  destruct Hin as [Heq | Hin].
  - inversion Heq; subst.
    destruct (check_field f (lookup k d)); simpl;
      rewrite ?String.eqb_refl; try reflexivity;
      apply lookup_absent; tauto.
  - assert (Hne : String.eqb k0 k = false).
    { apply String.eqb_neq. intros ->. apply Hk0.
      apply (in_map fst) in Hin. exact Hin. }
    destruct (check_field f0 (lookup k0 d)); simpl; rewrite ?Hne; auto.
Qed.

Lemma parse_object (shape : zobject) (d : jsobject) :
  parse shape (JObj d) =
  match snd (parse_shape shape d) with
  | [] => Ret (fst (parse_shape shape d))
  | errs => Throw (ZodError errs)
  end.
Proof.
  unfold parse. destruct (parse_shape shape d) as [obj [| e errs]]; reflexivity.
Qed.

Lemma parse_ret_fst (shape : zobject) (d data : jsobject) :
  parse shape (JObj d) = Ret data -> data = fst (parse_shape shape d).
Proof.
  rewrite parse_object.
  destruct (snd (parse_shape shape d)); [congruence | discriminate].
Qed.

Lemma parse_throw_snd (shape : zobject) (d : jsobject) (errs : list zissue) :
  parse shape (JObj d) = Throw (ZodError errs) ->
  errs = snd (parse_shape shape d).
Proof.
  rewrite parse_object.
  destruct (snd (parse_shape shape d)); [discriminate | congruence].
Qed.

Lemma parse_issue_throws (shape : zobject) (d : jsobject)
                         (k : string) (f : zfield) (c : zcode) :
  In (k, f) shape -> check_field f (lookup k d) = Invalid c ->
  exists errs, parse shape (JObj d) = Throw (ZodError errs)
               /\ In ([k], c) errs.
Proof.
  intros Hin Hc.
  assert (H : In ([k], c) (snd (parse_shape shape d))).
  { apply parse_shape_issue. now exists k, f. }
  rewrite parse_object. destruct (snd (parse_shape shape d)) as [| e errs].
  - destruct H.
  - now exists (e :: errs).
Qed.

Lemma parse_ret_no_issue (shape : zobject) (d data : jsobject)
                         (k : string) (f : zfield) :
  parse shape (JObj d) = Ret data -> In (k, f) shape ->
  data = fst (parse_shape shape d)
  /\ forall c, check_field f (lookup k d) <> Invalid c.
Proof.
  rewrite parse_object. intros H Hin.
  destruct (snd (parse_shape shape d)) as [| e errs] eqn:E; [| discriminate].
  split; [congruence |].
  intros c Hc.
  assert (Habs : In ([k], c) (snd (parse_shape shape d))).
  { apply parse_shape_issue. now exists k, f. }
  rewrite E in Habs. destruct Habs.
Qed.

(** ** The handlers, path by path *)

Section HandlerFacts.

Context {DB Sheet : Type}.
Variable storage : IStorage DB.
Variable sheets : ISheets Sheet.
Implicit Types (req : Request) (w : World DB Sheet).

Lemma serve_rejected e req w :
  In e protected ->
  session_subject (sessions w) (clock w) (cookie req) = None ->
  serve storage sheets e req w = (Ret unauthorized, w).
Proof.
  intros He Hs.
  assert (H : forall h, isAuthenticated req h w = (Ret unauthorized, w)).
  { intros h. unfold isAuthenticated. now rewrite Hs. }
  simpl in He. destruct He as [<- | [<- | [<- | [<- | []]]]]; apply H.
Qed.

Lemma serve_admitted e req w u :
  In e protected ->
  session_subject (sessions w) (clock w) (cookie req) = Some u ->
  serve storage sheets e req w =
  snd (registerRoutes storage sheets e) (with_user req u) w.
Proof.
  intros He Hs.
  assert (H : forall h, isAuthenticated req h w = h (with_user req u) w).
  { intros h. unfold isAuthenticated. now rewrite Hs. }
  simpl in He. destruct He as [<- | [<- | [<- | [<- | []]]]]; apply H.
Qed.

Lemma post_issue_invalid req w u errs :
  user req = Some u ->
  parse insertIssueSchema (body req) = Throw (ZodError errs) ->
  post_issue storage sheets req w = (Ret (validation_error errs), w).
Proof.
  intros Hu Hp. unfold post_issue, try_catch, bind, claims_sub, lift, ret.
  now rewrite Hu, Hp.
Qed.

Lemma put_issue_invalid req w u errs :
  user req = Some u ->
  parse updateIssueSchema (body req) = Throw (ZodError errs) ->
  put_issue storage sheets req w = (Ret (validation_error errs), w).
Proof.
  intros Hu Hp. unfold put_issue, try_catch, bind, claims_sub, lift, ret.
  now rewrite Hu, Hp.
Qed.

(** POST once the body is validated and [createIssue] has returned. *)
Lemma post_issue_created req w u data issue d r s :
  user req = Some u ->
  parse insertIssueSchema (body req) = Ret data ->
  createIssue storage data u (clock w) (db w) = (Ret issue, d) ->
  syncIssueToSheets sheets issue create (clock w) (sheet w) = (r, s) ->
  post_issue storage sheets req w =
  match r with
  | Ret _ =>
      (Ret (json 201 (issue_json issue)),
       after w d s [] [CCreateIssue data u; CSync issue create])
  | Throw (ZodError errors) =>
      (Ret (validation_error errors),
       after w d s [] [CCreateIssue data u; CSync issue create])
  | Throw e =>
      (Ret (json 500 (message "Failed to create issue")),
       after w d s [("Error creating issue:", e)]
             [CCreateIssue data u; CSync issue create])
  end.
Proof.
  intros Hu Hp Hc Hs.
  unfold post_issue, try_catch, bind, claims_sub, lift, ret, await_storage,
    await_sync, console_error, after.
  rewrite Hu, Hp, Hc. simpl. rewrite Hs.
  destruct r as [[] | [errors | msg]]; simpl;
    rewrite <- ?app_assoc, ?app_nil_r; reflexivity.
Qed.

(** PUT once the body is validated and [updateIssue] has returned a row. *)
Lemma put_issue_updated req w u data issue d r s :
  user req = Some u ->
  parse updateIssueSchema (body req) = Ret data ->
  updateIssue storage (params_id req) data u (clock w) (db w)
  = (Ret (Some issue), d) ->
  syncIssueToSheets sheets issue update (clock w) (sheet w) = (r, s) ->
  put_issue storage sheets req w =
  match r with
  | Ret _ =>
      (Ret (json 200 (issue_json issue)),
       after w d s [] [CUpdateIssue (params_id req) data u; CSync issue update])
  | Throw (ZodError errors) =>
      (Ret (validation_error errors),
       after w d s [] [CUpdateIssue (params_id req) data u; CSync issue update])
  | Throw e =>
      (Ret (json 500 (message "Failed to update issue")),
       after w d s [("Error updating issue:", e)]
             [CUpdateIssue (params_id req) data u; CSync issue update])
  end.
Proof.
  intros Hu Hp Hc Hs.
  unfold put_issue, try_catch, bind, claims_sub, lift, ret, await_storage,
    await_sync, console_error, after.
  rewrite Hu, Hp, Hc. simpl. rewrite Hs.
  destruct r as [[] | [errors | msg]]; simpl;
    rewrite <- ?app_assoc, ?app_nil_r; reflexivity.
Qed.

Lemma put_issue_missing req w u data d :
  user req = Some u ->
  parse updateIssueSchema (body req) = Ret data ->
  updateIssue storage (params_id req) data u (clock w) (db w)
  = (Ret None, d) ->
  put_issue storage sheets req w =
  (Ret not_found, after w d (sheet w) [] [CUpdateIssue (params_id req) data u]).
Proof.
  intros Hu Hp Hc.
  unfold put_issue, try_catch, bind, claims_sub, lift, ret, await_storage,
    after.
  rewrite Hu, Hp, Hc. simpl. now rewrite app_nil_r.
Qed.

(** DELETE once the row was fetched and [deleteIssue] has returned true. *)
Lemma delete_issue_deleted req w issue d0 d r s :
  getIssue storage (params_id req) (clock w) (db w) = (Ret (Some issue), d0) ->
  deleteIssue storage (params_id req) (clock w) d0 = (Ret true, d) ->
  syncIssueToSheets sheets issue delete (clock w) (sheet w) = (r, s) ->
  delete_issue storage sheets req w =
  match r with
  | Ret _ =>
      (Ret (mkResponse 204 None),
       after w d s [] [CGetIssue (params_id req); CDeleteIssue (params_id req);
                       CSync issue delete])
  | Throw e =>
      (Ret (json 500 (message "Failed to delete issue")),
       after w d s [("Error deleting issue:", e)]
             [CGetIssue (params_id req); CDeleteIssue (params_id req);
              CSync issue delete])
  end.
Proof.
  intros Hg Hd Hs.
  unfold delete_issue, try_catch, bind, ret, await_storage, await_sync,
    console_error, after.
  rewrite Hg. simpl. rewrite Hd. simpl. rewrite Hs.
  destruct r as [[] | e]; simpl;
    rewrite <- ?app_assoc, ?app_nil_r; reflexivity.
Qed.

Lemma delete_issue_missing req w d0 :
  getIssue storage (params_id req) (clock w) (db w) = (Ret None, d0) ->
  delete_issue storage sheets req w =
  (Ret not_found, after w d0 (sheet w) [] [CGetIssue (params_id req)]).
Proof.
  intros Hg.
  unfold delete_issue, try_catch, bind, ret, await_storage, after.
  rewrite Hg. simpl. now rewrite app_nil_r.
Qed.

End HandlerFacts.

(** ** Validation of creation and update payloads *)

Lemma insert_keys :
  map fst insertIssueSchema =
  ["title"; "type"; "description"; "impact"; "status"; "expectedFixDate"].
Proof. reflexivity. Qed.

Lemma update_keys :
  map fst updateIssueSchema =
  ["id"; "title"; "type"; "description"; "impact"; "status";
   "expectedFixDate"].
Proof. reflexivity. Qed.

Lemma insert_keys_nodup : NoDup (map fst insertIssueSchema).
Proof.
  rewrite insert_keys.
  repeat (constructor; [simpl; intuition discriminate |]). constructor.
Qed.

(** A validated creation payload reaches [createIssue] as it is. *)
Lemma post_issue_calls_create {DB Sheet} (storage : IStorage DB)
      (sheets : ISheets Sheet) (req : Request) (w : World DB Sheet)
      (u : string) (data : jsobject) :
  user req = Some u ->
  parse insertIssueSchema (body req) = Ret data ->
  exists r w' rest,
    post_issue storage sheets req w = (r, w')
    /\ calls w' = calls w ++ CCreateIssue data u :: rest.
Proof.
  intros Hu Hp.
  destruct (createIssue storage data u (clock w) (db w)) as [[issue | e] d]
    eqn:Hc.
  - destruct (syncIssueToSheets sheets issue create (clock w) (sheet w))
      as [r s] eqn:Hs.
    rewrite (post_issue_created storage sheets req w u data issue d r s)
      by assumption.
    destruct r as [[] | [errors | msg]]; do 2 eexists;
      exists [CSync issue create]; split; reflexivity.
  - unfold post_issue, try_catch, bind, claims_sub, lift, ret, await_storage,
      console_error.
    rewrite Hu, Hp, Hc. simpl.
    destruct e; do 2 eexists; exists []; split; reflexivity.
Qed.

(** A validated update payload reaches [updateIssue] as it is. *)
Lemma put_issue_calls_update {DB Sheet} (storage : IStorage DB)
      (sheets : ISheets Sheet) (req : Request) (w : World DB Sheet)
      (u : string) (data : jsobject) :
  user req = Some u ->
  parse updateIssueSchema (body req) = Ret data ->
  exists r w' rest,
    put_issue storage sheets req w = (r, w')
    /\ calls w' = calls w ++ CUpdateIssue (params_id req) data u :: rest.
Proof.
  intros Hu Hp.
  destruct (updateIssue storage (params_id req) data u (clock w) (db w))
    as [[[issue |] | e] d] eqn:Hc.
  - destruct (syncIssueToSheets sheets issue update (clock w) (sheet w))
      as [r s] eqn:Hs.
    rewrite (put_issue_updated storage sheets req w u data issue d r s)
      by assumption.
    destruct r as [[] | [errors | msg]]; do 2 eexists;
      exists [CSync issue update]; split; reflexivity.
  - rewrite (put_issue_missing storage sheets req w u data d) by assumption.
    do 2 eexists; exists []; split; reflexivity.
  - unfold put_issue, try_catch, bind, claims_sub, lift, ret, await_storage,
      console_error.
    rewrite Hu, Hp, Hc. simpl.
    destruct e; do 2 eexists; exists []; split; reflexivity.
Qed.

(** C1 (evaluated on the code).  The claim: a [type], [impact] or
    [status] outside its enumeration fails validation.  On the code the
    three columns are plain [varchar]s, so the derived schemas only bound
    their length: the payload [Sample.bogus_enums], with all three
    outside their enumerations, passes both the creation and the update
    schema, and POST hands it to [createIssue] unchanged. *)
Theorem C1_enum_values_pass_validation :
  mem "bogus" type_values = false
  /\ mem "Enormous" impact_values = false
  /\ mem "whatever" status_values = false
  /\ parse insertIssueSchema (JObj Sample.bogus_enums)
     = Ret Sample.bogus_enums
  /\ parse updateIssueSchema (JObj Sample.bogus_enums)
     = Ret Sample.bogus_enums
  /\ forall (DB Sheet : Type) (storage : IStorage DB) (sheets : ISheets Sheet)
            (w : World DB Sheet) (c : option string) (u : string),
       exists r w' rest,
         post_issue storage sheets
                    (mkRequest c (Some u) [] "" (JObj Sample.bogus_enums)) w
         = (r, w')
         /\ calls w' = calls w ++ CCreateIssue Sample.bogus_enums u :: rest.
Proof.
  repeat split; try reflexivity.
  intros. now apply post_issue_calls_create.
Qed.

(** C2, the claim as stated fails: the creation payload of the
    specification's example scenario is valid by the data model and
    omits [status], and the creation schema rejects it. *)
Lemma C2_counterexample :
  spec_valid_creation Sample.no_status = true
  /\ lookup "status" Sample.no_status = None
  /\ parse insertIssueSchema (JObj Sample.no_status)
     = Throw (ZodError [(["status"], invalid_type)])
  /\ serve Sample.storage Mirror.service POST_issues
           (Sample.request (Some "s1") "" (JObj Sample.no_status))
           Sample.world0
     = (Ret (validation_error [(["status"], invalid_type)]), Sample.world0).
Proof. repeat split. Qed.

(** C2 (amended).  [status] is a required field of the creation shape:
    an authenticated POST whose payload omits it is answered 400 with an
    issue on [status], and neither the store nor the mirror is called;
    a payload that passes validation carries a [status] string of at
    most 20 characters, the validated data carry that same string, and
    these validated data are what the POST handler hands to
    [createIssue], its first call, for the subject of the session. *)
Theorem C2_status_is_required {DB Sheet} (storage : IStorage DB)
        (sheets : ISheets Sheet) (req : Request) (w : World DB Sheet)
        (u : string) (props : jsobject) :
  session_subject (sessions w) (clock w) (cookie req) = Some u ->
  body req = JObj props ->
  (lookup "status" props = None ->
   exists errs,
     In (["status"], invalid_type) errs
     /\ serve storage sheets POST_issues req w
        = (Ret (validation_error errs), w))
  /\ (forall data,
        parse insertIssueSchema (JObj props) = Ret data ->
        exists s,
          lookup "status" props = Some (JStr s)
          /\ lookup "status" data = Some (JStr s)
          /\ String.length s <= 20
          /\ exists r w' rest,
               serve storage sheets POST_issues req w = (r, w')
               /\ calls w' = calls w ++ CCreateIssue data u :: rest).
Proof.
  intros Hs Hb. split.
  - intros Hnone.
    destruct (parse_issue_throws insertIssueSchema props "status"
                (mkField (ZString (Some 20)) false false) invalid_type)
      as [errs [Hp Hin]].
    + simpl. tauto.
    + now rewrite Hnone.
    + exists errs. split; [assumption |].
      rewrite (serve_admitted storage sheets POST_issues req w u);
        [| simpl; tauto | assumption].
      apply (post_issue_invalid storage sheets _ w u); [reflexivity |].
      simpl. now rewrite Hb.
  - intros data Hp.
    assert (Hcall : exists r w' rest,
               serve storage sheets POST_issues req w = (r, w')
               /\ calls w' = calls w ++ CCreateIssue data u :: rest).
    { rewrite (serve_admitted storage sheets POST_issues req w u);
        [| simpl; tauto | assumption].
      apply (post_issue_calls_create storage sheets (with_user req u) w u
               data); [reflexivity |].
      cbn [body with_user]. now rewrite Hb. }
    pose (f := mkField (ZString (Some 20)) false false).
    assert (Hin : In ("status", f) insertIssueSchema) by (simpl; tauto).
    destruct (parse_ret_no_issue _ _ _ _ _ Hp Hin) as [Hdata Hok].
    assert (Hlk : lookup "status" data
                  = match check_field f (lookup "status" props) with
                    | Value v => Some v
                    | _ => None
                    end).
    { rewrite Hdata.
      apply (parse_shape_lookup _ props "status" f insert_keys_nodup Hin). }
    unfold check_field, f in Hlk, Hok. simpl in Hlk, Hok.
    destruct (lookup "status" props) as [[| b | n | s | t | l | o] |];
      simpl in Hlk, Hok; try (exfalso; now apply (Hok invalid_type)).
    destruct (Nat.leb (String.length s) 20) eqn:Hlen.
    + exists s. repeat split;
        [exact Hlk | now apply Nat.leb_le | exact Hcall].
    + exfalso. now apply (Hok too_big).
Qed.

Lemma C2_status_is_required_witness :
  (exists errs,
      In (["status"], invalid_type) errs
      /\ serve Sample.storage Mirror.service POST_issues
               (Sample.request (Some "s1") "" (JObj Sample.no_status))
               Sample.world0
         = (Ret (validation_error errs), Sample.world0))
  /\ (exists s,
         lookup "status" Sample.empty_texts = Some (JStr s)
         /\ lookup "status" Sample.empty_texts = Some (JStr s)
         /\ String.length s <= 20
         /\ exists r w' rest,
              serve Sample.storage Mirror.service POST_issues
                    (Sample.request (Some "s1") "" (JObj Sample.empty_texts))
                    Sample.world0
              = (r, w')
              /\ calls w'
                 = calls Sample.world0
                   ++ CCreateIssue Sample.empty_texts "u1" :: rest).
Proof.
  split.
  - apply (proj1 (C2_status_is_required Sample.storage Mirror.service
                    (Sample.request (Some "s1") "" (JObj Sample.no_status))
                    Sample.world0 "u1" Sample.no_status eq_refl eq_refl)).
    reflexivity.
  - apply (proj2 (C2_status_is_required Sample.storage Mirror.service
                    (Sample.request (Some "s1") "" (JObj Sample.empty_texts))
                    Sample.world0 "u1" Sample.empty_texts eq_refl eq_refl)
                 Sample.empty_texts eq_refl).
Defined.

(** C4, the claim as stated fails: a creation payload that carries all
    five server-set fields next to the required ones passes validation;
    the five are dropped from the validated data, with which the POST
    handler goes on to call [createIssue]. *)
Lemma C4_counterexample :
  keys Sample.with_server_fields
  = server_fields ++ ["title"; "type"; "description"; "impact"; "status"]
  /\ parse insertIssueSchema (JObj Sample.with_server_fields)
     = Ret [ ("title", JStr "Crash on save"); ("type", JStr "issue");
             ("description", JStr "..."); ("impact", JStr "High");
             ("status", JStr "open") ]
  /\ hd_error
       (calls (snd (serve Sample.storage Mirror.service POST_issues
                          (Sample.request (Some "s1") ""
                                          (JObj Sample.with_server_fields))
                          Sample.world0)))
     = Some (CCreateIssue
               [ ("title", JStr "Crash on save"); ("type", JStr "issue");
                 ("description", JStr "..."); ("impact", JStr "High");
                 ("status", JStr "open") ] "u1").
Proof. repeat split. Qed.

(** C4 (amended).  Validation against the creation shape ignores [id],
    [createdBy], [updatedBy], [createdAt] and [updatedAt]: a body is
    validated exactly as the same body without them, none of them
    appears in the validated data, and the POST handler answers and acts
    as it does for the body without them. *)
Theorem C4_server_fields_are_stripped (props : jsobject) :
  parse insertIssueSchema (JObj props)
  = parse insertIssueSchema (JObj (without server_fields props))
  /\ (forall data k,
        parse insertIssueSchema (JObj props) = Ret data ->
        In k server_fields -> lookup k data = None)
  /\ (forall (DB Sheet : Type) (storage : IStorage DB) (sheets : ISheets Sheet)
             (req : Request) (w : World DB Sheet),
        body req = JObj props ->
        post_issue storage sheets req w
        = post_issue storage sheets
                     (with_body req (JObj (without server_fields props))) w).
Proof.
  assert (Heq : parse insertIssueSchema (JObj props)
                = parse insertIssueSchema (JObj (without server_fields props))).
  { rewrite !parse_object.
    rewrite (parse_shape_ext insertIssueSchema
               (without server_fields props) props); [reflexivity |].
    intros k Hk. apply lookup_without.
    rewrite insert_keys in Hk. simpl in Hk.
    destruct Hk as [<- | [<- | [<- | [<- | [<- | [<- | []]]]]]]; reflexivity. }
  split; [exact Heq | split].
  - intros data k Hp Hk. apply parse_ret_fst in Hp. subst data.
    apply lookup_absent. intros Hin.
    apply parse_shape_keys in Hin. rewrite insert_keys in Hin.
    simpl in Hk, Hin.
    destruct Hk as [<- | [<- | [<- | [<- | [<- | []]]]]];
      intuition discriminate.
  - intros DB Sheet storage sheets req w Hb.
    unfold post_issue, try_catch, bind, claims_sub, lift. simpl.
    now rewrite Hb, Heq.
Qed.

Lemma C4_server_fields_are_stripped_witness :
  lookup "id" [ ("title", JStr "Crash on save"); ("type", JStr "issue");
                ("description", JStr "..."); ("impact", JStr "High");
                ("status", JStr "open") ] = None.
Proof.
  apply (proj1 (proj2 (C4_server_fields_are_stripped
                         Sample.with_server_fields))).
  - reflexivity.
  - simpl. tauto.
Defined.

(** C5, the claim as stated fails: a creation payload whose [title] and
    [description] are both the empty string passes validation, and the
    POST handler goes on to call [createIssue] with it. *)
Lemma C5_counterexample :
  lookup "title" Sample.empty_texts = Some (JStr "")
  /\ lookup "description" Sample.empty_texts = Some (JStr "")
  /\ parse insertIssueSchema (JObj Sample.empty_texts)
     = Ret Sample.empty_texts
  /\ hd_error
       (calls (snd (serve Sample.storage Mirror.service POST_issues
                          (Sample.request (Some "s1") ""
                                          (JObj Sample.empty_texts))
                          Sample.world0)))
     = Some (CCreateIssue Sample.empty_texts "u1").
Proof. repeat split. Qed.

(** C5 (amended).  [title] and [description] are required strings:
    validation of a creation payload raises an issue on one of them
    exactly when the payload has no string there (the field is missing
    or is not a string), and then an authenticated POST is answered 400
    without calling the store; any string, the empty one included,
    raises none. *)
Theorem C5_title_and_description_are_required_strings
        (props : jsobject) (k : string) :
  In k ["title"; "description"] ->
  ((exists errs c,
       parse insertIssueSchema (JObj props) = Throw (ZodError errs)
       /\ In ([k], c) errs)
   <-> (forall s, lookup k props <> Some (JStr s)))
  /\ ((forall s, lookup k props <> Some (JStr s)) ->
      forall (DB Sheet : Type) (storage : IStorage DB) (sheets : ISheets Sheet)
             (req : Request) (w : World DB Sheet) (u : string),
        user req = Some u -> body req = JObj props ->
        exists errs,
          In ([k], invalid_type) errs
          /\ post_issue storage sheets req w
             = (Ret (validation_error errs), w)).
Proof.
  intros Hk.
  pose (f := mkField (ZString None) false false).
  assert (Hin : In (k, f) insertIssueSchema).
  { simpl in Hk. destruct Hk as [<- | [<- | []]]; simpl; tauto. }
  assert (Hinv : (forall s, lookup k props <> Some (JStr s)) ->
                 check_field f (lookup k props) = Invalid invalid_type).
  { intros Hns.
    destruct (lookup k props) as [[| b | n | s | t | l | o] |];
      try reflexivity.
    now destruct (Hns s). }
  split; [split |].
  - intros (errs & c & Hp & Hc) s Hs.
    apply parse_throw_snd in Hp. subst errs.
    apply parse_shape_issue in Hc.
    destruct Hc as (k' & f' & Hpath & Hin' & Hc).
    inversion Hpath; subst k'.
    assert (f' = f).
    { pose proof insert_keys_nodup as Hnd.
      clear - Hin Hin' Hk. simpl in Hk, Hin, Hin'.
      destruct Hk as [<- | [<- | []]];
        repeat (destruct Hin as [Hin | Hin];
                [inversion Hin; subst | ]); try destruct Hin;
        repeat (destruct Hin' as [Hin' | Hin'];
                [inversion Hin'; subst; try reflexivity | ]);
        try destruct Hin'. }
    subst f'. rewrite Hs in Hc. discriminate.
  - intros Hns.
    destruct (parse_issue_throws insertIssueSchema props k f invalid_type
                Hin (Hinv Hns)) as [errs [Hp Hc]].
    now exists errs, invalid_type.
  - intros Hns DB Sheet storage sheets req w u Hu Hb.
    destruct (parse_issue_throws insertIssueSchema props k f invalid_type
                Hin (Hinv Hns)) as [errs [Hp Hc]].
    exists errs. split; [assumption |].
    apply (post_issue_invalid storage sheets req w u); [assumption |].
    now rewrite Hb.
Qed.

Lemma C5_title_and_description_are_required_strings_witness :
  exists errs c,
    parse insertIssueSchema (JObj [("title", JNum 7)]) = Throw (ZodError errs)
    /\ In (["title"], c) errs.
Proof.
  apply (proj1 (C5_title_and_description_are_required_strings
                  [("title", JNum 7)] "title" (or_introl eq_refl))).
  intros s H. discriminate H.
Defined.

(** ** Mirror synchronization failures *)

(** C3, the claim as stated fails: the issue is deleted from the store,
    the call to the spreadsheet service throws, and the DELETE handler
    answers 500 instead of 204; the deletion stays committed. *)
Lemma C3_counterexample :
  MemStorage.deleteIssue Sample.id1 2000%Z [Sample.crash] = (Ret true, [])
  /\ syncIssueToSheets Sample.throwing Sample.crash delete 2000%Z tt
     = (Throw (Error "sheets unavailable"), tt)
  /\ serve Sample.storage Sample.throwing DELETE_issue
           (Sample.request (Some "s1") Sample.id1 JNull) Sample.world1
     = (Ret (json 500 (message "Failed to delete issue")),
        after Sample.world1 [] tt
              [("Error deleting issue:", Error "sheets unavailable")]
              [CGetIssue Sample.id1; CDeleteIssue Sample.id1;
               CSync Sample.crash delete]).
Proof. repeat split. Qed.

(** C3 (amended).  Once the store operation of a mutation has returned,
    the outcome of the call to the spreadsheet service decides the
    response.  If the call returns, the handler answers with the success
    response (201 and the row for POST, 200 and the row for PUT, 204
    without a body for DELETE).  If the call throws, the handler's own
    [catch] takes over: the error is logged on the console and the
    response is 500 with the generic message of the route (POST and PUT
    answer 400 without logging when the thrown value is a [ZodError]).
    In both cases the store stays in the state the operation left: no
    rollback. *)
Theorem C3_sync_outcome_decides_the_response {DB Sheet}
        (storage : IStorage DB) (sheets : ISheets Sheet) (req : Request)
        (w : World DB Sheet) (u : string) (issue : Issue.t) (d : DB)
        (r : outcome unit) (s : Sheet) :
  user req = Some u ->
  (forall data,
      parse insertIssueSchema (body req) = Ret data ->
      createIssue storage data u (clock w) (db w) = (Ret issue, d) ->
      syncIssueToSheets sheets issue create (clock w) (sheet w) = (r, s) ->
      post_issue storage sheets req w =
      match r with
      | Ret _ =>
          (Ret (json 201 (issue_json issue)),
           after w d s [] [CCreateIssue data u; CSync issue create])
      | Throw (ZodError errors) =>
          (Ret (validation_error errors),
           after w d s [] [CCreateIssue data u; CSync issue create])
      | Throw e =>
          (Ret (json 500 (message "Failed to create issue")),
           after w d s [("Error creating issue:", e)]
                 [CCreateIssue data u; CSync issue create])
      end)
  /\ (forall data,
         parse updateIssueSchema (body req) = Ret data ->
         updateIssue storage (params_id req) data u (clock w) (db w)
         = (Ret (Some issue), d) ->
         syncIssueToSheets sheets issue update (clock w) (sheet w) = (r, s) ->
         put_issue storage sheets req w =
         match r with
         | Ret _ =>
             (Ret (json 200 (issue_json issue)),
              after w d s []
                    [CUpdateIssue (params_id req) data u; CSync issue update])
         | Throw (ZodError errors) =>
             (Ret (validation_error errors),
              after w d s []
                    [CUpdateIssue (params_id req) data u; CSync issue update])
         | Throw e =>
             (Ret (json 500 (message "Failed to update issue")),
              after w d s [("Error updating issue:", e)]
                    [CUpdateIssue (params_id req) data u; CSync issue update])
         end)
  /\ (forall d0,
         getIssue storage (params_id req) (clock w) (db w)
         = (Ret (Some issue), d0) ->
         deleteIssue storage (params_id req) (clock w) d0 = (Ret true, d) ->
         syncIssueToSheets sheets issue delete (clock w) (sheet w) = (r, s) ->
         delete_issue storage sheets req w =
         match r with
         | Ret _ =>
             (Ret (mkResponse 204 None),
              after w d s []
                    [CGetIssue (params_id req); CDeleteIssue (params_id req);
                     CSync issue delete])
         | Throw e =>
             (Ret (json 500 (message "Failed to delete issue")),
              after w d s [("Error deleting issue:", e)]
                    [CGetIssue (params_id req); CDeleteIssue (params_id req);
                     CSync issue delete])
         end).
Proof.
  intros Hu. repeat split.
  - intros data. now apply post_issue_created.
  - intros data. now apply put_issue_updated.
  - intros d0. now apply delete_issue_deleted.
Qed.

Lemma C3_sync_outcome_decides_the_response_witness :
  put_issue Sample.storage Sample.throwing
            (mkRequest None (Some "u2") [] Sample.id1
                       (JObj [("status", JStr "closed")]))
            Sample.world1
  = (Ret (json 500 (message "Failed to update issue")),
     after Sample.world1
           [MemStorage.touch "u2" 2000%Z
              (MemStorage.merge Sample.crash [("status", JStr "closed")])]
           tt
           [("Error updating issue:", Error "sheets unavailable")]
           [CUpdateIssue Sample.id1 [("status", JStr "closed")] "u2";
            CSync (MemStorage.touch "u2" 2000%Z
                     (MemStorage.merge Sample.crash
                                       [("status", JStr "closed")]))
                  update])
  /\ delete_issue Sample.storage Mirror.service
                  (mkRequest None (Some "u2") [] Sample.id1 JNull)
                  Sample.world0
     = (Ret (mkResponse 204 None),
        after Sample.world0 [] (Mirror.mk [] true []) []
              [CGetIssue Sample.id1; CDeleteIssue Sample.id1;
               CSync Sample.crash delete]).
Proof.
  split.
  - apply (proj1 (proj2 (C3_sync_outcome_decides_the_response
                           Sample.storage Sample.throwing
                           (mkRequest None (Some "u2") [] Sample.id1
                                      (JObj [("status", JStr "closed")]))
                           Sample.world1 "u2" _ _
                           (Throw (Error "sheets unavailable")) tt eq_refl)));
      reflexivity.
  - apply (proj2 (proj2 (C3_sync_outcome_decides_the_response
                           Sample.storage Mirror.service
                           (mkRequest None (Some "u2") [] Sample.id1 JNull)
                           Sample.world0 "u2" Sample.crash _
                           (Ret tt) _ eq_refl)) [Sample.crash]);
      reflexivity.
Defined.

(** ** Redaction on the public routes *)

Lemma publicIssue_keys (issue : Issue.t) :
  object_keys (publicIssue issue) = Some whitelist.
Proof. reflexivity. Qed.

Lemma publicIssue_redacted (issue : Issue.t) :
  no_key "createdBy" (publicIssue issue) = true
  /\ no_key "updatedBy" (publicIssue issue) = true.
Proof.
  destruct issue as [i t ty de im st [fix_date |] cb ub [ca |] [ua |]];
    split; reflexivity.
Qed.

Lemma publicIssues_redacted (rows : list Issue.t) :
  no_key "createdBy" (JArr (map publicIssue rows)) = true
  /\ no_key "updatedBy" (JArr (map publicIssue rows)) = true.
Proof.
  induction rows as [| row rows [IH1 IH2]]; [split; reflexivity |].
  destruct (publicIssue_redacted row) as [H1 H2].
  split; change (no_key ?k (JArr (map publicIssue (row :: rows))))
    with (no_key k (publicIssue row)
          && no_key k (JArr (map publicIssue rows))).
  - now rewrite H1, IH1.
  - now rewrite H2, IH2.
Qed.

Lemma get_issues_cases {DB Sheet} (storage : IStorage DB) (req : Request)
      (w : World DB Sheet) :
  exists w',
    (exists rows,
        get_issues storage req w
        = (Ret (json 200 (JArr (map publicIssue rows))), w'))
    \/ get_issues storage req w
       = (Ret (json 500 (message "Failed to fetch issues")), w').
Proof.
  unfold get_issues, try_catch, bind, ret, await_storage, console_error.
  destruct (getAllIssues storage _ (clock w) (db w)) as [[rows | e] d];
    simpl; eexists; [left; exists rows | right]; reflexivity.
Qed.

Lemma get_issue_cases {DB Sheet} (storage : IStorage DB) (req : Request)
      (w : World DB Sheet) :
  exists w',
    (exists row,
        get_issue storage req w = (Ret (json 200 (publicIssue row)), w'))
    \/ get_issue storage req w = (Ret not_found, w')
    \/ get_issue storage req w
       = (Ret (json 500 (message "Failed to fetch issue")), w').
Proof.
  unfold get_issue, try_catch, bind, ret, await_storage, console_error.
  destruct (getIssue storage _ (clock w) (db w)) as [[[row |] | e] d];
    simpl; eexists;
    [left; exists row | right; left | right; right]; reflexivity.
Qed.

(** C6.  Whatever the store holds and returns, the response of
    GET /api/issues and of GET /api/issues/:id has no [createdBy] and no
    [updatedBy] key anywhere in its body; a 200 response carries, for
    each issue, an object whose keys are exactly the whitelist. *)
Theorem C6_public_responses_are_redacted {DB Sheet}
        (storage : IStorage DB) (sheets : ISheets Sheet) (req : Request)
        (w : World DB Sheet) :
  (exists resp w',
      serve storage sheets GET_issues req w = (Ret resp, w')
      /\ (forall v, payload resp = Some v ->
                    no_key "createdBy" v = true /\ no_key "updatedBy" v = true)
      /\ (statusCode resp = 200 ->
          exists items,
            payload resp = Some (JArr items)
            /\ Forall (fun v => object_keys v = Some whitelist) items))
  /\ (exists resp w',
         serve storage sheets GET_issue req w = (Ret resp, w')
         /\ (forall v, payload resp = Some v ->
                       no_key "createdBy" v = true
                       /\ no_key "updatedBy" v = true)
         /\ (statusCode resp = 200 ->
             exists v,
               payload resp = Some v /\ object_keys v = Some whitelist)).
Proof.
  split.
  - destruct (get_issues_cases storage req w) as [w' [[rows H] | H]];
      do 2 eexists; (split; [exact H | split]); simpl.
    + intros v Hv. inversion Hv; subst. apply publicIssues_redacted.
    + intros _. exists (map publicIssue rows). split; [reflexivity |].
      apply Forall_forall. intros v Hv. apply in_map_iff in Hv.
      destruct Hv as [row [<- _]]. apply publicIssue_keys.
    + intros v Hv. inversion Hv; subst. split; reflexivity.
    + discriminate.
  - destruct (get_issue_cases storage req w) as [w' [[row H] | [H | H]]];
      do 2 eexists; (split; [exact H | split]); simpl.
    + intros v Hv. inversion Hv; subst. apply publicIssue_redacted.
    + intros _. exists (publicIssue row). split; reflexivity.
    + intros v Hv. inversion Hv; subst. split; reflexivity.
    + discriminate.
    + intros v Hv. inversion Hv; subst. split; reflexivity.
    + discriminate.
Qed.

(** ** The auth gate in front of the routes *)

(** C9.  A request to GET /api/auth/user or to POST, PUT or DELETE on
    issues whose session is missing, unknown or expired is answered with
    the authentication failure and leaves the world exactly as it was:
    no store operation, no mirror synchronization, no log line.  These
    four routes are registered behind [isAuthenticated]; the two public
    GET routes are registered without any middleware, answer the same
    whatever session the request carries, and never answer 401. *)
Theorem C9_auth_gate_guards_the_protected_routes {DB Sheet}
        (storage : IStorage DB) (sheets : ISheets Sheet) (req : Request)
        (w : World DB Sheet) :
  (session_subject (sessions w) (clock w) (cookie req) = None ->
   forall e, In e protected ->
             serve storage sheets e req w = (Ret unauthorized, w))
  /\ (forall e, In e protected ->
                fst (registerRoutes storage sheets e) = [isAuthenticated])
  /\ (forall e, In e public ->
        fst (registerRoutes storage sheets e) = []
        /\ (forall c, serve storage sheets e (with_cookie req c) w
                      = serve storage sheets e req w)
        /\ exists resp w',
             serve storage sheets e req w = (Ret resp, w')
             /\ statusCode resp <> 401).
Proof.
  split; [| split].
  - intros Hs e He. now apply serve_rejected.
  - intros e He. simpl in He.
    destruct He as [<- | [<- | [<- | [<- | []]]]]; reflexivity.
  - intros e He. simpl in He. destruct He as [<- | [<- | []]].
    + split; [reflexivity | split; [reflexivity |]].
      destruct (get_issues_cases storage req w) as [w' [[rows H] | H]];
        do 2 eexists; (split; [exact H | simpl; lia]).
    + split; [reflexivity | split; [reflexivity |]].
      destruct (get_issue_cases storage req w) as [w' [[row H] | [H | H]]];
        do 2 eexists; (split; [exact H | simpl; lia]).
Qed.

Lemma C9_auth_gate_guards_the_protected_routes_witness :
  serve Sample.storage Mirror.service DELETE_issue
        (Sample.request (Some "s0") Sample.id1 JNull) Sample.world0
  = (Ret unauthorized, Sample.world0)
  /\ serve Sample.storage Mirror.service POST_issues
           (Sample.request (Some "s1") "" (JObj Sample.bogus_enums))
           (at_time 5000 Sample.world0)
     = (Ret unauthorized, at_time 5000 Sample.world0).
Proof.
  split.
  - apply (proj1 (C9_auth_gate_guards_the_protected_routes
                    Sample.storage Mirror.service
                    (Sample.request (Some "s0") Sample.id1 JNull)
                    Sample.world0)); [reflexivity | simpl; tauto].
  - apply (proj1 (C9_auth_gate_guards_the_protected_routes
                    Sample.storage Mirror.service
                    (Sample.request (Some "s1") "" (JObj Sample.bogus_enums))
                    (at_time 5000 Sample.world0)));
      [reflexivity | simpl; tauto].
Defined.

(** ** Updates on the record store *)

Lemma parse_throws_zod (shape : zobject) (v : jsval) (e : exn) :
  parse shape v = Throw e -> exists errs, e = ZodError errs.
Proof.
  unfold parse.
  destruct v as [| b | n | s | t | items | props];
    try (intros H; inversion H; eexists; reflexivity).
  destruct (parse_shape shape props) as [obj [| i errs]];
    intros H; inversion H; eexists; reflexivity.
Qed.

(** The update shape knows neither [createdBy] nor [createdAt]. *)
Lemma validated_update_has_no_creation_field (b : jsval) (data : jsobject) :
  parse updateIssueSchema b = Ret data ->
  lookup "createdBy" data = None /\ lookup "createdAt" data = None.
Proof.
  destruct b; try discriminate. intros Hp.
  apply parse_ret_fst in Hp. subst data.
  split; apply lookup_absent; intros Hin; apply parse_shape_keys in Hin;
    rewrite update_keys in Hin; simpl in Hin; intuition discriminate.
Qed.

Lemma merge_created (row : Issue.t) (data : jsobject) :
  lookup "createdBy" data = None -> lookup "createdAt" data = None ->
  created (MemStorage.merge row data) = created row.
Proof.
  intros H1 H2.
  unfold created, MemStorage.merge, MemStorage.set_nullable_string,
    MemStorage.set_nullable_date. simpl.
  now rewrite H1, H2.
Qed.

Lemma find_has_id (id : string) (rows : list Issue.t) (row : Issue.t) :
  find (MemStorage.has_id id) rows = Some row ->
  In row rows /\ MemStorage.has_id id row = true.
Proof. apply find_some. Qed.

Lemma find_after_delete (id : string) (rows : list Issue.t) :
  find (MemStorage.has_id id)
       (filter (fun r => negb (MemStorage.has_id id r)) rows) = None.
Proof.
  induction rows as [| row rows IH]; simpl; [reflexivity |].
  destruct (MemStorage.has_id id row) eqn:E; simpl; [exact IH |].
  now rewrite E.
Qed.

Lemma created_by_position (before after : list Issue.t) (k : nat)
      (row : Issue.t) :
  map created after = map created before ->
  nth_error before k = Some row ->
  exists row',
    nth_error after k = Some row'
    /\ Issue.createdBy row' = Issue.createdBy row
    /\ Issue.createdAt row' = Issue.createdAt row.
Proof.
  intros Hmap Hk.
  apply (map_nth_error created) in Hk. rewrite <- Hmap in Hk.
  rewrite nth_error_map in Hk.
  destruct (nth_error after k) as [row' |]; [| discriminate].
  exists row'. simpl in Hk. unfold created in Hk.
  inversion Hk. auto.
Qed.

Section StoreFacts.

Variable getUser : string -> action MemStorage.DB (option User.t).
Variable getAllIssues : Filters -> action MemStorage.DB (list Issue.t).
Variable createIssue : jsobject -> string -> action MemStorage.DB Issue.t.
Context {Sheet : Type}.
Variable sheets : ISheets Sheet.

Local Abbreviation storage :=
  (MemStorage.storage getUser getAllIssues createIssue).

(** The ways a PUT through the whole route can end. *)
Lemma put_served (req : Request) (w : World MemStorage.DB Sheet) :
  (exists resp, statusCode resp <> 200
                /\ serve storage sheets PUT_issue req w = (Ret resp, w))
  \/ (exists u data resp,
         session_subject (sessions w) (clock w) (cookie req) = Some u
         /\ parse updateIssueSchema (body req) = Ret data
         /\ find (MemStorage.has_id (params_id req)) (db w) = None
         /\ statusCode resp <> 200
         /\ exists cs, serve storage sheets PUT_issue req w
                       = (Ret resp, after w (db w) (sheet w) [] cs))
  \/ (exists u data old resp s log cs,
         session_subject (sessions w) (clock w) (cookie req) = Some u
         /\ parse updateIssueSchema (body req) = Ret data
         /\ find (MemStorage.has_id (params_id req)) (db w) = Some old
         /\ serve storage sheets PUT_issue req w
            = (Ret resp,
               after w
                     (map (fun r => if MemStorage.has_id (params_id req) r
                                    then MemStorage.touch u (clock w)
                                           (MemStorage.merge r data)
                                    else r) (db w))
                     s log cs)
         /\ (statusCode resp = 200 ->
             payload resp
             = Some (issue_json (MemStorage.touch u (clock w)
                                   (MemStorage.merge old data))))).
Proof.
  destruct (session_subject (sessions w) (clock w) (cookie req)) as [u |]
    eqn:Hs.
  2:{ left. exists unauthorized. split; [simpl; lia |].
      apply serve_rejected; [simpl; tauto | assumption]. }
  rewrite (serve_admitted storage sheets PUT_issue req w u);
    [| simpl; tauto | assumption].
  simpl.
  destruct (parse updateIssueSchema (body req)) as [data | e] eqn:Hp.
  2:{ left. destruct (parse_throws_zod _ _ _ Hp) as [errs ->].
      exists (validation_error errs). split; [simpl; lia |].
      now apply (put_issue_invalid storage sheets _ w u). }
  destruct (find (MemStorage.has_id (params_id req)) (db w)) as [old |]
    eqn:Hf.
  - right. right.
    destruct (syncIssueToSheets sheets
                (MemStorage.touch u (clock w) (MemStorage.merge old data))
                update (clock w) (sheet w)) as [r s] eqn:Hsync.
    assert (Hupd : updateIssue storage (params_id req) data u (clock w) (db w)
                   = (Ret (Some (MemStorage.touch u (clock w)
                                   (MemStorage.merge old data))),
                      map (fun r => if MemStorage.has_id (params_id req) r
                                    then MemStorage.touch u (clock w)
                                           (MemStorage.merge r data)
                                    else r) (db w))).
    { simpl. unfold MemStorage.updateIssue. now rewrite Hf. }
    pose proof (put_issue_updated storage sheets (with_user req u) w u
                  data _ _ r s eq_refl Hp Hupd Hsync) as Hput.
    destruct r as [[] | [errors | msg]];
      (exists u, data, old; do 4 eexists;
       repeat split; [exact Hput | simpl; try discriminate; reflexivity]).
  - right. left.
    assert (Hupd : updateIssue storage (params_id req) data u (clock w) (db w)
                   = (Ret None, db w)).
    { simpl. unfold MemStorage.updateIssue. now rewrite Hf. }
    pose proof (put_issue_missing storage sheets (with_user req u) w u
                  data (db w) eq_refl Hp Hupd) as Hput.
    exists u, data, not_found. repeat split; [simpl; lia |].
    eexists. exact Hput.
Qed.

Lemma put_keeps_created (req : Request) (w : World MemStorage.DB Sheet) :
  map created (db (snd (serve storage sheets PUT_issue req w)))
  = map created (db w).
Proof.
  destruct (put_served req w)
    as [(resp & _ & H)
       | [(u & data & resp & _ & _ & _ & _ & cs & H)
         | (u & data & old & resp & s & log & cs & _ & Hp & _ & H & _)]];
    rewrite H; simpl; try reflexivity.
  destruct (validated_update_has_no_creation_field _ _ Hp) as [H1 H2].
  rewrite map_map. apply map_ext. intros row.
  destruct (MemStorage.has_id (params_id req) row); [| reflexivity].
  now apply merge_created.
Qed.

Lemma put_all_keeps_created (reqs : list (Z * Request))
      (w : World MemStorage.DB Sheet) :
  map created (db (put_all storage sheets reqs w)) = map created (db w).
Proof.
  revert w. induction reqs as [| [t req] reqs IH]; intros w; simpl;
    [reflexivity |].
  rewrite IH. now rewrite put_keeps_created.
Qed.

End StoreFacts.

(** C7.  Over the record store, for every sequence of PUT requests,
    each served at its own time, every row keeps the [createdBy] and the
    [createdAt] it had before the sequence (for the store as a whole,
    and row by row); and every PUT answered 200
    returns a row of the store whose [updatedBy] is the authenticated
    subject of the request and whose [updatedAt] is the time of the
    request, with the creation fields of the row it updated. *)
Theorem C7_updates_keep_the_creation_fields
        (getUser : string -> action MemStorage.DB (option User.t))
        (getAllIssues : Filters -> action MemStorage.DB (list Issue.t))
        (createIssue : jsobject -> string -> action MemStorage.DB Issue.t)
        {Sheet : Type} (sheets : ISheets Sheet) :
  let storage := MemStorage.storage getUser getAllIssues createIssue in
  (forall (reqs : list (Z * Request)) (w : World MemStorage.DB Sheet),
      map created (db (put_all storage sheets reqs w)) = map created (db w))
  /\ (forall (reqs : list (Z * Request)) (w : World MemStorage.DB Sheet)
             (k : nat) (row : Issue.t),
         nth_error (db w) k = Some row ->
         exists row',
           nth_error (db (put_all storage sheets reqs w)) k = Some row'
           /\ Issue.createdBy row' = Issue.createdBy row
           /\ Issue.createdAt row' = Issue.createdAt row)
  /\ (forall (req : Request) (w w' : World MemStorage.DB Sheet)
             (resp : Response),
         serve storage sheets PUT_issue req w = (Ret resp, w') ->
         statusCode resp = 200 ->
         exists u old issue,
           session_subject (sessions w) (clock w) (cookie req) = Some u
           /\ find (MemStorage.has_id (params_id req)) (db w) = Some old
           /\ payload resp = Some (issue_json issue)
           /\ In issue (db w')
           /\ Issue.updatedBy issue = Some u
           /\ Issue.updatedAt issue = Some (clock w)
           /\ created issue = created old).
Proof.
  intros storage. subst storage. split; [| split].
  - apply put_all_keeps_created.
  - intros reqs w k row. apply created_by_position.
    apply put_all_keeps_created.
  - intros req w w' resp Hserve H200.
    destruct (put_served getUser getAllIssues createIssue sheets req w)
      as [(resp0 & Hne & H)
         | [(u & data & resp0 & _ & _ & _ & Hne & cs & H)
           | (u & data & old & resp0 & s & log & cs & Hs & Hp & Hf & H & Hpay)]];
      rewrite H in Hserve; inversion Hserve; subst;
      try contradiction.
    destruct (validated_update_has_no_creation_field _ _ Hp) as [H1 H2].
    exists u, old, (MemStorage.touch u (clock w) (MemStorage.merge old data)).
    repeat split; auto.
    + destruct (find_has_id _ _ _ Hf) as [Hin Hid]. simpl.
      apply in_map_iff. exists old. now rewrite Hid.
    + now apply merge_created.
Qed.

Lemma C7_updates_keep_the_creation_fields_witness :
  exists u old issue,
    session_subject [Sample.session1] 2000 (Some "s1") = Some u
    /\ find (MemStorage.has_id Sample.id1) [Sample.crash] = Some old
    /\ Some (issue_json
               (MemStorage.touch "u1" 2000
                  (MemStorage.merge Sample.crash
                                    [("status", JStr "closed")])))
       = Some (issue_json issue)
    /\ In issue
          [MemStorage.touch "u1" 2000
             (MemStorage.merge Sample.crash [("status", JStr "closed")])]
    /\ Issue.updatedBy issue = Some u
    /\ Issue.updatedAt issue = Some 2000%Z
    /\ created issue = created old.
Proof.
  apply (proj2 (proj2 (C7_updates_keep_the_creation_fields
                         Sample.getUser Sample.getAllIssues Sample.createIssue
                         Mirror.service))
               (Sample.request (Some "s1") Sample.id1
                               (JObj [("status", JStr "closed")]))
               Sample.world0 _ _ eq_refl eq_refl).
Defined.

(** C8 (evaluated on the code).  The claim: no accepted PUT body can
    alter the id of an issue.  On the code the update shape omits
    [createdBy], [createdAt], [updatedBy] and [updatedAt] but, unlike
    the creation shape, not [id]: a body that names another id passes
    validation and reaches [updateIssue] with the [id] in the data to
    merge, and over the record store the row then leaves its id. *)
Theorem C8_update_shape_accepts_an_id :
  mem "id" (map fst insertIssueSchema) = false
  /\ mem "id" (map fst updateIssueSchema) = true
  /\ parse updateIssueSchema (JObj [("id", JStr Sample.id2)])
     = Ret [("id", JStr Sample.id2)]
  /\ (forall (DB Sheet : Type) (storage : IStorage DB)
             (sheets : ISheets Sheet) (w : World DB Sheet)
             (c : option string) (u : string),
         exists r w' rest,
           put_issue storage sheets
                     (mkRequest c (Some u) [] Sample.id1
                                (JObj [("id", JStr Sample.id2)])) w
           = (r, w')
           /\ calls w' = calls w
                         ++ CUpdateIssue Sample.id1
                                         [("id", JStr Sample.id2)] u :: rest)
  /\ (let served := serve Sample.storage Mirror.service PUT_issue
                          (Sample.request (Some "s1") Sample.id1
                                          (JObj [("id", JStr Sample.id2)]))
                          Sample.world0 in
      map Issue.id (db Sample.world0) = [Sample.id1]
      /\ option_map statusCode
                    (match fst served with Ret r => Some r | _ => None end)
         = Some 200
      /\ map Issue.id (db (snd served)) = [Sample.id2]
      /\ find (MemStorage.has_id Sample.id1) (db (snd served)) = None).
Proof.
  repeat split; try reflexivity.
  intros. now apply put_issue_calls_update.
Qed.

(** ** Deletion *)

Lemma mirror_sync_returns (issue : Issue.t) (op : operation) (t : Z)
      (s : Mirror.Sheet) :
  syncIssueToSheets Mirror.service issue op t s
  = (Ret tt, snd (Mirror.syncIssueToSheets issue op t s)).
Proof.
  simpl. unfold Mirror.syncIssueToSheets.
  destruct (Mirror.reachable s); reflexivity.
Qed.

(** C10, the claim as stated fails: the store has an issue with the
    id, the handler fetches and deletes it, the call to the spreadsheet
    service throws, and the handler answers 500 with a message instead
    of 204 with an empty body. *)
Lemma C10_counterexample :
  find (MemStorage.has_id Sample.id1) (db Sample.world1) = Some Sample.crash
  /\ delete_issue Sample.storage Sample.throwing
                  (Sample.request None Sample.id1 JNull) Sample.world1
     = (Ret (json 500 (message "Failed to delete issue")),
        after Sample.world1 [] tt
              [("Error deleting issue:", Error "sheets unavailable")]
              [CGetIssue Sample.id1; CDeleteIssue Sample.id1;
               CSync Sample.crash delete]).
Proof. split; reflexivity. Qed.

(** C10 (amended).  What the DELETE handler does, for every store and
    every spreadsheet service.  It first fetches the issue of the path
    id.  If the fetch returns nothing, it answers 404 and calls nothing
    else.  Otherwise it calls [deleteIssue]; if that returns false it
    answers 404 and the mirror is not called; if it returns true it
    synchronizes the mirror with the fetched row and the operation
    [delete] and, when that call returns, answers 204 without a body.
    If the fetch, the deletion or the synchronization throws, the error
    is logged and the answer is 500.  Over the record store and the
    mirror of the specification, which never throw: with no issue of
    that id the answer is 404 and store, mirror and console are
    unchanged; otherwise the answer is 204, the store no longer has an
    issue of that id, and the mirror, when reachable, has lost the row
    and otherwise has logged the failure.  The route runs this handler
    for every request the auth gate lets through. *)
Theorem C10_delete_outcomes :
  (forall (DB Sheet : Type) (storage : IStorage DB) (sheets : ISheets Sheet)
          (req : Request) (w : World DB Sheet),
      let id := params_id req in
      delete_issue storage sheets req w =
      match getIssue storage id (clock w) (db w) with
      | (Throw e, d0) =>
          (Ret (json 500 (message "Failed to delete issue")),
           after w d0 (sheet w) [("Error deleting issue:", e)] [CGetIssue id])
      | (Ret None, d0) =>
          (Ret not_found, after w d0 (sheet w) [] [CGetIssue id])
      | (Ret (Some issue), d0) =>
          match deleteIssue storage id (clock w) d0 with
          | (Throw e, d) =>
              (Ret (json 500 (message "Failed to delete issue")),
               after w d (sheet w) [("Error deleting issue:", e)]
                     [CGetIssue id; CDeleteIssue id])
          | (Ret false, d) =>
              (Ret not_found,
               after w d (sheet w) [] [CGetIssue id; CDeleteIssue id])
          | (Ret true, d) =>
              match syncIssueToSheets sheets issue delete
                                      (clock w) (sheet w) with
              | (Ret _, s) =>
                  (Ret (mkResponse 204 None),
                   after w d s []
                         [CGetIssue id; CDeleteIssue id; CSync issue delete])
              | (Throw e, s) =>
                  (Ret (json 500 (message "Failed to delete issue")),
                   after w d s [("Error deleting issue:", e)]
                         [CGetIssue id; CDeleteIssue id; CSync issue delete])
              end
          end
      end)
  /\ (forall (getUser : string -> action MemStorage.DB (option User.t))
             (getAllIssues : Filters -> action MemStorage.DB (list Issue.t))
             (createIssue : jsobject -> string
                            -> action MemStorage.DB Issue.t)
             (req : Request) (w : World MemStorage.DB Mirror.Sheet),
         let storage := MemStorage.storage getUser getAllIssues createIssue in
         let id := params_id req in
         let remaining :=
           filter (fun r => negb (MemStorage.has_id id r)) (db w) in
         match find (MemStorage.has_id id) (db w) with
         | None =>
             delete_issue storage Mirror.service req w
             = (Ret not_found, after w (db w) (sheet w) [] [CGetIssue id])
         | Some issue =>
             let mirrored :=
               snd (Mirror.syncIssueToSheets issue delete
                                             (clock w) (sheet w)) in
             delete_issue storage Mirror.service req w
             = (Ret (mkResponse 204 None),
                after w remaining mirrored []
                      [CGetIssue id; CDeleteIssue id; CSync issue delete])
             /\ In issue (db w)
             /\ find (MemStorage.has_id id) remaining = None
             /\ Mirror.rows mirrored
                = (if Mirror.reachable (sheet w)
                   then Mirror.remove issue (Mirror.rows (sheet w))
                   else Mirror.rows (sheet w))
             /\ Mirror.failures mirrored
                = (if Mirror.reachable (sheet w)
                   then Mirror.failures (sheet w)
                   else Mirror.failures (sheet w)
                        ++ [(Issue.id issue, delete)])
         end)
  /\ (forall (DB Sheet : Type) (storage : IStorage DB)
             (sheets : ISheets Sheet) (req : Request) (w : World DB Sheet)
             (u : string),
         session_subject (sessions w) (clock w) (cookie req) = Some u ->
         serve storage sheets DELETE_issue req w
         = delete_issue storage sheets req w).
Proof.
  split; [| split].
  - intros DB Sheet storage sheets req w id.
    unfold delete_issue, try_catch, bind, ret, await_storage, await_sync,
      console_error, after. fold id.
    destruct (getIssue storage id (clock w) (db w))
      as [[[issue |] | e] d0];
      cbn [db sheet sessions clock console calls];
      [| now rewrite app_nil_r | reflexivity].
    destruct (deleteIssue storage id (clock w) d0) as [[[|] | e] d];
      cbn [db sheet sessions clock console calls negb];
      [| now rewrite <- app_assoc, app_nil_r
       | now rewrite <- app_assoc].
    destruct (syncIssueToSheets sheets issue delete (clock w) (sheet w))
      as [[[] | e] s];
      cbn [db sheet sessions clock console calls];
      rewrite <- !app_assoc, ?app_nil_r; reflexivity.
  - intros getUser getAllIssues createIssue req w storage id remaining.
    destruct (find (MemStorage.has_id id) (db w)) as [issue |] eqn:Hf.
    + destruct (find_has_id _ _ _ Hf) as [Hin Hid].
      assert (Hg : getIssue storage (params_id req) (clock w) (db w)
                   = (Ret (Some issue), db w)).
      { simpl. unfold MemStorage.getIssue. fold id. now rewrite Hf. }
      assert (Hd : deleteIssue storage (params_id req) (clock w) (db w)
                   = (Ret true, remaining)).
      { simpl. unfold MemStorage.deleteIssue. fold id.
        assert (Hex : existsb (MemStorage.has_id id) (db w) = true).
        { apply existsb_exists. now exists issue. }
        now rewrite Hex. }
      split; [| split; [| split; [| split]]].
      * apply (delete_issue_deleted storage Mirror.service req w issue (db w)
                 remaining (Ret tt) _ Hg Hd (mirror_sync_returns _ _ _ _)).
      * exact Hin.
      * apply find_after_delete.
      * unfold Mirror.syncIssueToSheets.
        destruct (Mirror.reachable (sheet w)); reflexivity.
      * unfold Mirror.syncIssueToSheets.
        destruct (Mirror.reachable (sheet w)); reflexivity.
    + apply delete_issue_missing.
      simpl. unfold MemStorage.getIssue. fold id. now rewrite Hf.
  - intros DB Sheet storage sheets req w u Hs.
    rewrite (serve_admitted storage sheets DELETE_issue req w u);
      [reflexivity | simpl; tauto | assumption].
Qed.

Lemma C10_delete_outcomes_witness :
  serve Sample.storage Mirror.service DELETE_issue
        (Sample.request (Some "s1") Sample.id1 JNull) Sample.world0
  = (Ret (mkResponse 204 None),
     after Sample.world0 [] (Mirror.mk [] true []) []
           [CGetIssue Sample.id1; CDeleteIssue Sample.id1;
            CSync Sample.crash delete]).
Proof.
  rewrite (proj2 (proj2 C10_delete_outcomes) MemStorage.DB Mirror.Sheet
                 Sample.storage Mirror.service
                 (Sample.request (Some "s1") Sample.id1 JNull)
                 Sample.world0 "u1" eq_refl).
  exact (proj1 C10_delete_outcomes MemStorage.DB Mirror.Sheet
               Sample.storage Mirror.service
               (Sample.request (Some "s1") Sample.id1 JNull)
               Sample.world0).
Defined.

(** * Further properties *)

(** ** What the schemas accept *)

Lemma check_value (f : zfield) (x : option jsval) (v : jsval) :
  check_field f x = Value v -> x = Some v.
Proof.
  unfold check_field, check_type.
  destruct x as [x |]; [| destruct (zoptional f); discriminate].
  destruct x as [| b | z | s | t | l | o];
    destruct (ztyp f) as [[n |] | |];
    try destruct (znullable f);
    try destruct (Nat.leb (String.length s) n);
    try destruct (is_uuid s);
    intros H; inversion H; reflexivity.
Qed.

Lemma check_undefined (f : zfield) (x : option jsval) :
  check_field f x = Undefined -> x = None.
Proof.
  unfold check_field, check_type.
  destruct x as [x |]; [| reflexivity].
  destruct x as [| b | z | s | t | l | o];
    destruct (ztyp f) as [[n |] | |];
    try destruct (znullable f);
    try destruct (Nat.leb (String.length s) n);
    try destruct (is_uuid s);
    intros H; inversion H.
Qed.

Lemma parse_shape_ok_iff (shape : zobject) (d : jsobject) :
  snd (parse_shape shape d) = [] <->
  forallb (fun p => field_ok (snd p) (lookup (fst p) d)) shape = true.
Proof.
  induction shape as [| [k f] shape IH]; simpl; [tauto |].
  destruct (parse_shape shape d) as [obj errs]. simpl in IH.
  unfold field_ok at 1. simpl.
  destruct (check_field f (lookup k d)); simpl; rewrite <- ?IH;
    try tauto.
  split; discriminate.
Qed.

Lemma parse_shape_pick (shape : zobject) (d : jsobject) :
  snd (parse_shape shape d) = [] ->
  fst (parse_shape shape d) = pick (map fst shape) d.
Proof.
  induction shape as [| [k f] shape IH]; simpl; [reflexivity |].
  destruct (parse_shape shape d) as [obj errs]. simpl in IH.
  destruct (check_field f (lookup k d)) eqn:C; simpl; intros H.
  - rewrite (check_undefined _ _ C). simpl. auto.
  - rewrite (check_value _ _ _ C). simpl. now rewrite IH.
  - discriminate.
Qed.

Lemma parse_ret_iff (shape : zobject) (d obj : jsobject) :
  parse shape (JObj d) = Ret obj <->
  forallb (fun p => field_ok (snd p) (lookup (fst p) d)) shape = true
  /\ obj = pick (map fst shape) d.
Proof.
  rewrite <- parse_shape_ok_iff, parse_object. split.
  - destruct (snd (parse_shape shape d)) eqn:E; [| discriminate].
    intros H. split; [reflexivity |].
    rewrite <- (parse_shape_pick _ _ E). congruence.
  - intros [E ->]. rewrite E. now rewrite (parse_shape_pick _ _ E).
Qed.

Lemma required_text_ok (x : option jsval) :
  field_ok (mkField (ZString None) false false) x = is_string x.
Proof. destruct x as [[] |]; reflexivity. Qed.

Lemma required_varchar_ok (n : nat) (x : option jsval) :
  field_ok (mkField (ZString (Some n)) false false) x = string_within n x.
Proof.
  destruct x as [[| | | s | | |] |]; try reflexivity.
  unfold field_ok. simpl. now destruct (Nat.leb (String.length s) n).
Qed.

Lemma optional_text_ok (x : option jsval) :
  field_ok (mkField (ZString None) false true) x = if_present is_string x.
Proof. destruct x as [[] |]; reflexivity. Qed.

Lemma optional_varchar_ok (n : nat) (x : option jsval) :
  field_ok (mkField (ZString (Some n)) false true) x
  = if_present (string_within n) x.
Proof.
  destruct x as [[| | | s | | |] |]; try reflexivity.
  unfold field_ok. simpl. now destruct (Nat.leb (String.length s) n).
Qed.

Lemma optional_uuid_ok (x : option jsval) :
  field_ok (mkField ZUuid false true) x = if_present uuid_string x.
Proof.
  destruct x as [[| | | s | | |] |]; try reflexivity.
  unfold field_ok. simpl. now destruct (is_uuid s).
Qed.

Lemma nullable_date_ok (x : option jsval) :
  field_ok (mkField ZDate true true) x = optional_date x.
Proof. destruct x as [[] |]; reflexivity. Qed.

Lemma insertIssueSchema_fields :
  insertIssueSchema
  = [ ("title", mkField (ZString None) false false);
      ("type", mkField (ZString (Some 50)) false false);
      ("description", mkField (ZString None) false false);
      ("impact", mkField (ZString (Some 20)) false false);
      ("status", mkField (ZString (Some 20)) false false);
      ("expectedFixDate", mkField ZDate true true) ].
Proof. reflexivity. Qed.

Lemma updateIssueSchema_fields :
  updateIssueSchema
  = [ ("id", mkField ZUuid false true);
      ("title", mkField (ZString None) false true);
      ("type", mkField (ZString (Some 50)) false true);
      ("description", mkField (ZString None) false true);
      ("impact", mkField (ZString (Some 20)) false true);
      ("status", mkField (ZString (Some 20)) false true);
      ("expectedFixDate", mkField ZDate true true) ].
Proof. reflexivity. Qed.

Lemma update_keys_nodup : NoDup (map fst updateIssueSchema).
Proof.
  rewrite update_keys.
  repeat (constructor; [simpl; intuition discriminate |]). constructor.
Qed.

(** X1.  The creation shape accepts a body exactly when [title] and
    [description] are strings, [type], [impact] and [status] are
    strings of at most 50, 20 and 20 characters, and [expectedFixDate]
    is absent, [null] or a date; the validated data are then the six
    fields of the body that are present, in the order of the shape,
    with their values unchanged. *)
Theorem creation_shape_accepts (d obj : jsobject) :
  parse insertIssueSchema (JObj d) = Ret obj <->
  creation_shape_ok d = true
  /\ obj = pick ["title"; "type"; "description"; "impact"; "status";
                 "expectedFixDate"] d.
Proof.
  rewrite parse_ret_iff, insert_keys.
  rewrite insertIssueSchema_fields at 1.
  cbn [forallb fst snd].
  rewrite !required_text_ok, !required_varchar_ok, nullable_date_ok.
  unfold creation_shape_ok. rewrite andb_true_r, !andb_assoc. reflexivity.
Qed.

(** X2.  The update shape accepts a body exactly when every field that
    is present is well formed: [id] a uuid, [title] and [description]
    strings, [type], [impact] and [status] strings of at most 50, 20
    and 20 characters, [expectedFixDate] [null] or a date; no field is
    required, so the empty object is accepted; the validated data are
    the fields of the shape that the body carries, unchanged. *)
Theorem update_shape_accepts (d obj : jsobject) :
  (parse updateIssueSchema (JObj d) = Ret obj <->
   update_shape_ok d = true
   /\ obj = pick ["id"; "title"; "type"; "description"; "impact"; "status";
                  "expectedFixDate"] d)
  /\ parse updateIssueSchema (JObj []) = Ret [].
Proof.
  split; [| reflexivity].
  rewrite parse_ret_iff, update_keys.
  rewrite updateIssueSchema_fields at 1.
  cbn [forallb fst snd].
  rewrite !optional_text_ok, !optional_varchar_ok, optional_uuid_ok,
    nullable_date_ok.
  unfold update_shape_ok. rewrite andb_true_r, !andb_assoc. reflexivity.
Qed.

Lemma lookup_pick (ks : list string) (d : jsobject) (k : string) :
  lookup k (pick ks d) = if mem k ks then lookup k d else None.
Proof.
  induction ks as [| k0 ks IH]; simpl; [reflexivity |].
  destruct (String.eqb k k0) eqn:E; simpl.
  - apply String.eqb_eq in E. subst k0.
    destruct (lookup k d) as [v |] eqn:L; simpl.
    + now rewrite String.eqb_refl.
    + rewrite IH. now destruct (mem k ks).
  - destruct (lookup k0 d) as [v |]; simpl; [| exact IH].
    rewrite String.eqb_sym, E. exact IH.
Qed.

Lemma parse_twice (shape : zobject) (d obj : jsobject) :
  parse shape (JObj d) = Ret obj -> parse shape (JObj obj) = Ret obj.
Proof.
  intros H. pose proof H as H'. apply parse_ret_iff in H' as [_ ->].
  rewrite <- H. rewrite !parse_object.
  rewrite (parse_shape_ext shape (pick (map fst shape) d) d); [reflexivity |].
  intros k Hk. rewrite lookup_pick.
  assert (Hm : mem k (map fst shape) = true).
  { unfold mem. apply existsb_exists. exists k.
    split; [assumption | apply String.eqb_refl]. }
  now rewrite Hm.
Qed.

(** X3.  Validated data validate to themselves: parsing the result of
    a successful parse against the same schema returns it unchanged;
    and the result agrees with the body on every key of the schema and
    has no other key. *)
Theorem validated_data_revalidate (S : zobject) (d obj : jsobject) :
  In S [insertIssueSchema; updateIssueSchema] ->
  parse S (JObj d) = Ret obj ->
  parse S (JObj obj) = Ret obj
  /\ forall k, lookup k obj = if mem k (map fst S) then lookup k d else None.
Proof.
  intros _ H. split; [now apply (parse_twice S d) |].
  intros k. apply parse_ret_iff in H as [_ ->]. apply lookup_pick.
Qed.

Lemma validated_data_revalidate_witness :
  parse updateIssueSchema (JObj [("status", JStr "closed")])
  = Ret [("status", JStr "closed")].
Proof.
  apply (proj1 (validated_data_revalidate updateIssueSchema
                  [("createdBy", JStr "mallory"); ("status", JStr "closed")]
                  [("status", JStr "closed")]
                  (or_intror (or_introl eq_refl)) eq_refl)).
Defined.

Lemma partial_keeps_valid_fields (f : zfield) (x : option jsval) :
  field_ok f x = true ->
  check_field (mkField (ztyp f) (znullable f) true) x = check_field f x.
Proof.
  unfold field_ok, check_field. destruct x as [x |]; [reflexivity |].
  simpl. destruct (zoptional f); [reflexivity | discriminate].
Qed.

Lemma partial_accepts (shape : zobject) (d : jsobject) :
  snd (parse_shape shape d) = [] ->
  parse_shape (partial shape) d = parse_shape shape d.
Proof.
  induction shape as [| [k f] shape IH]; simpl; [reflexivity |].
  destruct (parse_shape shape d) as [obj errs] eqn:E. simpl in IH.
  intros H.
  assert (Hf : field_ok f (lookup k d) = true /\ errs = []).
  { unfold field_ok.
    destruct (check_field f (lookup k d)); simpl in H;
      try discriminate; auto. }
  destruct Hf as [Hf ->].
  rewrite IH by reflexivity.
  now rewrite (partial_keeps_valid_fields _ _ Hf).
Qed.

Lemma parse_optional_head (k : string) (f : zfield) (shape : zobject)
      (d : jsobject) :
  zoptional f = true -> lookup k d = None ->
  parse_shape ((k, f) :: shape) d = parse_shape shape d.
Proof.
  intros Hf Hk. simpl. destruct (parse_shape shape d) as [obj errs].
  unfold check_field. now rewrite Hk, Hf.
Qed.

(** X4.  Every body the creation shape accepts is, unless it carries an
    [id], also accepted by the update shape, with the same validated
    data: the update shape is the creation shape made partial, plus an
    optional [id]. *)
Theorem creation_payload_is_an_update_payload (d obj : jsobject) :
  lookup "id" d = None ->
  parse insertIssueSchema (JObj d) = Ret obj ->
  parse updateIssueSchema (JObj d) = Ret obj.
Proof.
  intros Hid H.
  assert (E : snd (parse_shape insertIssueSchema d) = []).
  { apply parse_shape_ok_iff. now apply parse_ret_iff in H as [H _]. }
  rewrite parse_object.
  change updateIssueSchema
    with (("id", mkField ZUuid false true) :: partial insertIssueSchema).
  rewrite parse_optional_head by (reflexivity || assumption).
  rewrite (partial_accepts _ _ E), <- parse_object. exact H.
Qed.

Lemma creation_payload_is_an_update_payload_witness :
  parse updateIssueSchema (JObj Sample.empty_texts) = Ret Sample.empty_texts.
Proof.
  apply (creation_payload_is_an_update_payload Sample.empty_texts
           Sample.empty_texts eq_refl eq_refl).
Defined.

Lemma lookup_is_json (d : jsobject) (k : string) (v : jsval) :
  is_json (JObj d) = true -> lookup k d = Some v -> is_json v = true.
Proof.
  simpl. induction d as [| [k' v'] d IH]; simpl; [discriminate |].
  intros H. apply andb_prop in H as [Hv Hd].
  destruct (String.eqb k' k); [| now apply IH].
  intros E. inversion E; subst. exact Hv.
Qed.

Lemma date_field_rejects_json (v : jsval) :
  is_json v = true -> v <> JNull ->
  check_field (mkField ZDate true true) (Some v) = Invalid invalid_type.
Proof.
  destruct v; simpl; try reflexivity; try discriminate.
  intros _ H. now destruct H.
Qed.

(** X5.  A body that comes from JSON cannot set [expectedFixDate] to a
    date: the field is validated as a [Date] object, which JSON has
    not, so for such a body any [expectedFixDate] other than [null]
    raises an [invalid_type] issue, on creation and on update alike,
    and a body that passes validation has it absent or [null]. *)
Theorem json_body_cannot_carry_a_date (S : zobject) (d : jsobject) :
  In S [insertIssueSchema; updateIssueSchema] ->
  is_json (JObj d) = true ->
  (forall v, lookup "expectedFixDate" d = Some v -> v <> JNull ->
             exists errs,
               parse S (JObj d) = Throw (ZodError errs)
               /\ In (["expectedFixDate"], invalid_type) errs)
  /\ (forall obj, parse S (JObj d) = Ret obj ->
                  lookup "expectedFixDate" obj = None
                  \/ lookup "expectedFixDate" obj = Some JNull).
Proof.
  intros HS Hj.
  assert (Hin : In ("expectedFixDate", mkField ZDate true true) S).
  { simpl in HS. destruct HS as [<- | [<- | []]]; simpl; tauto. }
  assert (Hrej : forall v, lookup "expectedFixDate" d = Some v -> v <> JNull ->
                           exists errs,
                             parse S (JObj d) = Throw (ZodError errs)
                             /\ In (["expectedFixDate"], invalid_type) errs).
  { intros v Hv Hn. apply (parse_issue_throws S d _ _ _ Hin).
    rewrite Hv. apply date_field_rejects_json; [| assumption].
    now apply (lookup_is_json d "expectedFixDate"). }
  split; [exact Hrej |].
  intros obj H. pose proof H as H'. apply parse_ret_iff in H' as [_ ->].
  rewrite lookup_pick.
  destruct (mem "expectedFixDate" (map fst S)); [| now left].
  destruct (lookup "expectedFixDate" d) as [v |] eqn:L; [| now left].
  destruct v; try (now right);
    (destruct (Hrej _ eq_refl) as [errs [Hthrow _]];
     [discriminate | congruence]).
Qed.

Lemma json_body_cannot_carry_a_date_witness :
  exists errs,
    parse insertIssueSchema
          (JObj (("expectedFixDate", JStr "2026-01-31T00:00:00.000Z")
                   :: Sample.empty_texts))
    = Throw (ZodError errs)
    /\ In (["expectedFixDate"], invalid_type) errs.
Proof.
  apply (proj1 (json_body_cannot_carry_a_date insertIssueSchema
                  (("expectedFixDate", JStr "2026-01-31T00:00:00.000Z")
                     :: Sample.empty_texts)
                  (or_introl eq_refl) eq_refl)
               (JStr "2026-01-31T00:00:00.000Z") eq_refl).
  discriminate.
Defined.

(** ** What a rejected body is told *)

Lemma parse_shape_issue_count (shape : zobject) (d : jsobject) :
  length (snd (parse_shape shape d)) <= length shape.
Proof.
  induction shape as [| [k f] shape IH]; simpl; [lia |].
  destruct (parse_shape shape d) as [obj errs]. simpl in IH.
  destruct (check_field f (lookup k d)); simpl; lia.
Qed.

Lemma parse_shape_paths_nodup (shape : zobject) (d : jsobject) :
  NoDup (map fst shape) -> NoDup (map fst (snd (parse_shape shape d))).
Proof.
  induction shape as [| [k f] shape IH]; simpl; [constructor |].
  intros Hnd. inversion Hnd as [| ? ? Hk Hnd']; subst.
  pose proof (parse_shape_issue shape d) as Hiss.
  destruct (parse_shape shape d) as [obj errs]. simpl in *.
  destruct (check_field f (lookup k d)); simpl; auto.
  constructor; [| auto].
  intros Hin. apply in_map_iff in Hin as [[path c] [Hpath Hin]].
  simpl in Hpath. subst path.
  apply Hiss in Hin as (k' & f' & Heq & Hin' & _).
  inversion Heq; subst k'. apply Hk.
  apply (in_map fst) in Hin'. exact Hin'.
Qed.

(** X6.  A rejected body is told about every invalid field, once each:
    the issues of the [ZodError] are exactly the fields of the schema
    whose validator fails on the body, each with its code and with the
    field name as its path; the list is not empty, has no two issues on
    the same path, and is no longer than the schema. *)
Theorem rejection_lists_every_invalid_field (S : zobject) (d : jsobject)
        (errs : list zissue) :
  In S [insertIssueSchema; updateIssueSchema] ->
  parse S (JObj d) = Throw (ZodError errs) ->
  errs <> []
  /\ NoDup (map fst errs)
  /\ length errs <= length S
  /\ (forall path c,
         In (path, c) errs <->
         exists k f, path = [k] /\ In (k, f) S
                     /\ check_field f (lookup k d) = Invalid c).
Proof.
  intros HS H.
  assert (Hnd : NoDup (map fst S)).
  { simpl in HS. destruct HS as [<- | [<- | []]];
      [apply insert_keys_nodup | apply update_keys_nodup]. }
  pose proof H as H'. apply parse_throw_snd in H'. subst errs.
  repeat split.
  - rewrite parse_object in H.
    destruct (snd (parse_shape S d)); [discriminate | discriminate].
  - now apply parse_shape_paths_nodup.
  - apply parse_shape_issue_count.
  - apply parse_shape_issue.
  - apply parse_shape_issue.
Qed.

Lemma rejection_lists_every_invalid_field_witness :
  [(["title"], invalid_type); (["type"], invalid_type);
   (["description"], invalid_type); (["impact"], too_big);
   (["status"], invalid_type)] <> []
  /\ NoDup [["title"]; ["type"]; ["description"]; ["impact"]; ["status"]].
Proof.
  destruct (rejection_lists_every_invalid_field insertIssueSchema
              [("impact", JStr "much higher than that")]
              [(["title"], invalid_type); (["type"], invalid_type);
               (["description"], invalid_type); (["impact"], too_big);
               (["status"], invalid_type)]
              (or_introl eq_refl) eq_refl) as (H1 & H2 & _).
  split; [exact H1 | exact H2].
Defined.

(** ** What validation reads of a body *)

Lemma parse_reads_schema_keys (S : zobject) (d d' : jsobject) :
  (forall k, In k (map fst S) -> lookup k d = lookup k d') ->
  parse S (JObj d) = parse S (JObj d').
Proof.
  intros H. rewrite !parse_object. now rewrite (parse_shape_ext S d d').
Qed.

(** X7.  Validation reads a body only through the keys of the schema:
    two bodies that agree on these keys (whatever other keys they
    carry, in whatever order) are validated alike, and the POST and PUT
    handlers answer and act alike on them.  In particular [createdBy],
    [createdAt], [updatedBy] and [updatedAt] in a PUT body change
    nothing. *)
Theorem validation_reads_only_schema_keys
        (e : endpoint) (S : zobject) (d d' : jsobject) :
  schema_of e = Some S ->
  (forall k, In k (map fst S) -> lookup k d = lookup k d') ->
  parse S (JObj d) = parse S (JObj d')
  /\ forall (DB Sheet : Type) (storage : IStorage DB) (sheets : ISheets Sheet)
            (req : Request) (w : World DB Sheet),
       handler storage sheets e (with_body req (JObj d)) w
       = handler storage sheets e (with_body req (JObj d')) w.
Proof.
  intros He Hagree.
  pose proof (parse_reads_schema_keys S d d' Hagree) as Heq.
  split; [exact Heq |].
  intros DB Sheet storage sheets req w.
  destruct e; try discriminate; inversion He; subst S;
    unfold handler; cbn [snd registerRoutes].
  - unfold post_issue, try_catch, bind, claims_sub, lift.
    cbn [user body with_body]. now rewrite Heq.
  - unfold put_issue, try_catch, bind, claims_sub, lift.
    cbn [user body params_id with_body]. now rewrite Heq.
Qed.

Lemma validation_reads_only_schema_keys_witness :
  parse updateIssueSchema
        (JObj [("createdBy", JStr "mallory"); ("status", JStr "closed");
               ("updatedAt", JNum 0)])
  = parse updateIssueSchema (JObj [("status", JStr "closed")]).
Proof.
  apply (proj1 (validation_reads_only_schema_keys PUT_issue updateIssueSchema
                  [("createdBy", JStr "mallory"); ("status", JStr "closed");
                   ("updatedAt", JNum 0)]
                  [("status", JStr "closed")] eq_refl
                  ltac:(intros k Hk; simpl in Hk;
                        repeat (destruct Hk as [<- | Hk]; [reflexivity |]);
                        destruct Hk))).
Defined.

(** X8.  A body that fails the schema of the route is answered 400
    with exactly the issues of the [ZodError], before anything is
    called: the world is left as it was.  A body that is not an object
    ([null], a string, a number, an array, ...) always fails, with a
    single [invalid_type] issue at the root. *)
Theorem invalid_body_is_answered_400
        {DB Sheet : Type} (storage : IStorage DB) (sheets : ISheets Sheet)
        (e : endpoint) (S : zobject) (req : Request) (w : World DB Sheet)
        (u : string) :
  schema_of e = Some S ->
  user req = Some u ->
  (forall errs,
      parse S (body req) = Throw (ZodError errs) ->
      handler storage sheets e req w = (Ret (validation_error errs), w))
  /\ ((forall props, body req <> JObj props) ->
      handler storage sheets e req w
      = (Ret (validation_error [([], invalid_type)]), w)).
Proof.
  intros He Hu.
  assert (H : forall errs,
             parse S (body req) = Throw (ZodError errs) ->
             handler storage sheets e req w
             = (Ret (validation_error errs), w)).
  { intros errs Hp.
    destruct e; try discriminate; inversion He; subst S.
    - exact (post_issue_invalid storage sheets req w u errs Hu Hp).
    - exact (put_issue_invalid storage sheets req w u errs Hu Hp). }
  split; [exact H |].
  intros Hno. apply H. unfold parse.
  destruct (body req) as [| b | n | s | t | items | props]; try reflexivity.
  now destruct (Hno props).
Qed.

Lemma invalid_body_is_answered_400_witness :
  handler Sample.storage Mirror.service PUT_issue
          (mkRequest None (Some "u1") [] Sample.id1 (JArr []))
          Sample.world0
  = (Ret (validation_error [([], invalid_type)]), Sample.world0).
Proof.
  apply (proj2 (invalid_body_is_answered_400 Sample.storage Mirror.service
                  PUT_issue updateIssueSchema
                  (mkRequest None (Some "u1") [] Sample.id1 (JArr []))
                  Sample.world0 "u1" eq_refl eq_refl)).
  intros props H. discriminate H.
Defined.

(** ** Every run of a handler takes one of the paths *)

Section PathFacts.

Context {DB Sheet : Type}.
Variable storage : IStorage DB.
Variable sheets : ISheets Sheet.
Implicit Types (req : Request) (w : World DB Sheet).

Lemma world_after w (d : DB) (s : Sheet) (cs : list call) :
  mkWorld d s (sessions w) (clock w) (console w) (calls w ++ cs)
  = after w d s [] cs.
Proof. unfold after. now rewrite app_nil_r. Qed.

Lemma world_logged w (log : list (string * exn)) :
  mkWorld (db w) (sheet w) (sessions w) (clock w) (console w ++ log) (calls w)
  = after w (db w) (sheet w) log [].
Proof. unfold after. now rewrite app_nil_r. Qed.

Local Abbreviation handled e req w :=
  (exists resp w',
      handler storage sheets e req w = (Ret resp, w')
      /\ path storage sheets req w e resp w').

Ltac tidy :=
  simpl; rewrite <- ?app_assoc; cbn [app];
  rewrite ?world_after, ?world_logged.

Lemma get_auth_user_path req w : handled GET_auth_user req w.
Proof.
  unfold handler. cbn [snd registerRoutes].
  unfold get_auth_user, try_catch, bind, claims_sub, ret, throw,
    await_storage, console_error.
  destruct (user req) as [u |] eqn:Hu.
  - destruct (getUser storage u (clock w) (db w)) as [[found | e] d] eqn:Hg;
      tidy; do 2 eexists; (split; [reflexivity |]).
    + now apply (path_user _ _ _ _ u found d).
    + now apply (path_user_failed _ _ _ _ u e d).
  - tidy. do 2 eexists. split; [reflexivity |].
    now apply path_user_unattached.
Qed.

Lemma get_issues_path req w : handled GET_issues req w.
Proof.
  unfold handler. cbn [snd registerRoutes].
  unfold get_issues, try_catch, bind, ret, await_storage, console_error.
  fold (query_param "status" req) (query_param "type" req)
       (query_param "search" req).
  fold (filters_of req).
  destruct (getAllIssues storage (filters_of req) (clock w) (db w))
    as [[rows | e] d] eqn:Hg;
    tidy; do 2 eexists; (split; [reflexivity |]).
  - now apply path_list.
  - now apply path_list_failed.
Qed.

Lemma get_issue_path req w : handled GET_issue req w.
Proof.
  unfold handler. cbn [snd registerRoutes].
  unfold get_issue, try_catch, bind, ret, await_storage, console_error.
  destruct (getIssue storage (params_id req) (clock w) (db w))
    as [[[row |] | e] d] eqn:Hg;
    tidy; do 2 eexists; (split; [reflexivity |]).
  - now apply path_get.
  - now apply path_get_missing.
  - now apply path_get_failed.
Qed.

Lemma post_issue_path req w : handled POST_issues req w.
Proof.
  unfold handler. cbn [snd registerRoutes].
  destruct (user req) as [u |] eqn:Hu.
  2:{ unfold post_issue, try_catch, bind, claims_sub, throw, ret,
        console_error. rewrite Hu. tidy.
      do 2 eexists. split; [reflexivity |]. now apply path_post_unattached. }
  destruct (parse insertIssueSchema (body req)) as [data | e] eqn:Hp.
  2:{ destruct (parse_throws_zod _ _ _ Hp) as [errs ->].
      do 2 eexists. split.
      - exact (post_issue_invalid storage sheets req w u errs Hu Hp).
      - now apply (path_post_invalid _ _ _ _ u errs). }
  unfold post_issue, try_catch, bind, claims_sub, lift, ret, await_storage,
    await_sync, console_error. rewrite Hu, Hp.
  destruct (createIssue storage data u (clock w) (db w)) as [[issue | e] d]
    eqn:Hc; cbn [db sheet sessions clock console calls].
  - destruct (syncIssueToSheets sheets issue create (clock w) (sheet w))
      as [[[] | e] s] eqn:Hy.
    + tidy. do 2 eexists. split; [reflexivity |].
      now apply (path_post_created _ _ _ _ u data issue d s).
    + destruct e as [errs | msg]; tidy; do 2 eexists;
        (split; [reflexivity |]).
      * now apply (path_post_sync_failed _ _ _ _ u data issue d
                     (ZodError errs) s).
      * now apply (path_post_sync_failed _ _ _ _ u data issue d
                     (Error msg) s).
  - destruct e as [errs | msg]; tidy; do 2 eexists;
      (split; [reflexivity |]).
    + now apply (path_post_store_failed _ _ _ _ u data (ZodError errs) d).
    + now apply (path_post_store_failed _ _ _ _ u data (Error msg) d).
Qed.

Lemma put_issue_path req w : handled PUT_issue req w.
Proof.
  unfold handler. cbn [snd registerRoutes].
  destruct (user req) as [u |] eqn:Hu.
  2:{ unfold put_issue, try_catch, bind, claims_sub, throw, ret,
        console_error. rewrite Hu. tidy.
      do 2 eexists. split; [reflexivity |]. now apply path_put_unattached. }
  destruct (parse updateIssueSchema (body req)) as [data | e] eqn:Hp.
  2:{ destruct (parse_throws_zod _ _ _ Hp) as [errs ->].
      do 2 eexists. split.
      - exact (put_issue_invalid storage sheets req w u errs Hu Hp).
      - now apply (path_put_invalid _ _ _ _ u errs). }
  unfold put_issue, try_catch, bind, claims_sub, lift, ret, await_storage,
    await_sync, console_error. rewrite Hu, Hp.
  destruct (updateIssue storage (params_id req) data u (clock w) (db w))
    as [[[issue |] | e] d] eqn:Hc; cbn [db sheet sessions clock console calls].
  - destruct (syncIssueToSheets sheets issue update (clock w) (sheet w))
      as [[[] | e] s] eqn:Hy.
    + tidy. do 2 eexists. split; [reflexivity |].
      now apply (path_put_updated _ _ _ _ u data issue d s).
    + destruct e as [errs | msg]; tidy; do 2 eexists;
        (split; [reflexivity |]).
      * now apply (path_put_sync_failed _ _ _ _ u data issue d
                     (ZodError errs) s).
      * now apply (path_put_sync_failed _ _ _ _ u data issue d
                     (Error msg) s).
  - tidy. do 2 eexists. split; [reflexivity |].
    now apply (path_put_missing _ _ _ _ u data d).
  - destruct e as [errs | msg]; tidy; do 2 eexists;
      (split; [reflexivity |]).
    + now apply (path_put_store_failed _ _ _ _ u data (ZodError errs) d).
    + now apply (path_put_store_failed _ _ _ _ u data (Error msg) d).
Qed.

Lemma delete_issue_path req w : handled DELETE_issue req w.
Proof.
  unfold handler. cbn [snd registerRoutes].
  unfold delete_issue, try_catch, bind, ret, await_storage, await_sync,
    console_error.
  destruct (getIssue storage (params_id req) (clock w) (db w))
    as [[[issue |] | e] d0] eqn:Hg;
    cbn [db sheet sessions clock console calls].
  - destruct (deleteIssue storage (params_id req) (clock w) d0)
      as [[[|] | e] d] eqn:Hd; cbn [db sheet sessions clock console calls negb].
    + destruct (syncIssueToSheets sheets issue delete (clock w) (sheet w))
        as [[[] | e] s] eqn:Hy; tidy; do 2 eexists;
        (split; [reflexivity |]).
      * now apply (path_delete_done _ _ _ _ issue d0 d s).
      * now apply (path_delete_sync_failed _ _ _ _ issue d0 d e s).
    + tidy. do 2 eexists. split; [reflexivity |].
      now apply (path_delete_vanished _ _ _ _ issue d0 d).
    + tidy. do 2 eexists. split; [reflexivity |].
      now apply (path_delete_failed _ _ _ _ issue d0 e d).
  - tidy. do 2 eexists. split; [reflexivity |].
    now apply (path_delete_missing _ _ _ _ d0).
  - tidy. do 2 eexists. split; [reflexivity |].
    now apply (path_delete_fetch_failed _ _ _ _ e d0).
Qed.

Lemma handler_path e req w : handled e req w.
Proof.
  destruct e;
    [ apply get_auth_user_path | apply get_issues_path | apply get_issue_path
    | apply post_issue_path | apply put_issue_path | apply delete_issue_path ].
Qed.

End PathFacts.

(** ** What every handler does, whatever the store and the mirror do *)

(** Two results of the same call are the same result. *)
Ltac agree :=
  repeat match goal with
         | H1 : ?x = ?a, H2 : ?x = ?b |- _ =>
             rewrite H1 in H2;
             first [ discriminate H2 | inversion H2; subst; clear H2 ]
         end.

(** X9.  No handler lets an exception escape: whatever the store and
    the spreadsheet service return or throw, and whether or not a user
    is attached to the request, the handler answers, and with one of
    the status codes of its route (for instance 201, 400 or 500 for
    POST, never 404). *)
Theorem handlers_always_answer
        {DB Sheet : Type} (storage : IStorage DB) (sheets : ISheets Sheet)
        (e : endpoint) (req : Request) (w : World DB Sheet) :
  exists resp w',
    handler storage sheets e req w = (Ret resp, w')
    /\ In (statusCode resp) (statuses e).
Proof.
  destruct (handler_path storage sheets e req w) as (resp & w' & Heq & Hp).
  exists resp, w'. split; [exact Heq |].
  destruct Hp;
    try match goal with x : exn |- _ => destruct x end;
    simpl; tauto.
Qed.

(** X10.  A handler writes to the console exactly when it answers 500:
    a 500 response comes with one logged line, carrying the error that
    was caught, and every other response (success, 400, 404) leaves the
    console as it was. *)
Theorem only_a_500_is_logged
        {DB Sheet : Type} (storage : IStorage DB) (sheets : ISheets Sheet)
        (e : endpoint) (req : Request) (w : World DB Sheet) :
  exists resp w' log,
    handler storage sheets e req w = (Ret resp, w')
    /\ console w' = console w ++ log
    /\ (statusCode resp = 500 -> exists label err, log = [(label, err)])
    /\ (statusCode resp <> 500 -> log = []).
Proof.
  destruct (handler_path storage sheets e req w) as (resp & w' & Heq & Hp).
  exists resp, w'.
  destruct Hp;
    try match goal with x : exn |- _ => destruct x end;
    first [ eexists; split; [exact Heq | split; [reflexivity |]]
          | exists []; split;
            [exact Heq | split; [symmetry; apply app_nil_r |]] ];
    simpl; split; intros Hstatus;
    try discriminate; try reflexivity; try (now destruct Hstatus); eauto.
Qed.

(** X11.  The calls a handler makes follow a fixed protocol: each
    handler makes one of a few sequences of calls (none at all; the
    store operation; the store operations followed by one
    synchronization of the mirror), always on the path parameter of the
    request; the mirror is synchronized at most once and last, and
    never by a GET handler; a run that makes no call leaves the store
    and the mirror as they were, and one that does not reach the
    synchronization leaves the mirror as it was. *)
Theorem calls_follow_the_protocol
        {DB Sheet : Type} (storage : IStorage DB) (sheets : ISheets Sheet)
        (e : endpoint) (req : Request) (w : World DB Sheet) :
  exists resp w' cs,
    handler storage sheets e req w = (Ret resp, w')
    /\ calls w' = calls w ++ cs
    /\ allowed e (params_id req) cs = true
    /\ (cs = [] -> db w' = db w /\ sheet w' = sheet w)
    /\ (existsb is_sync cs = false -> sheet w' = sheet w).
Proof.
  destruct (handler_path storage sheets e req w) as (resp & w' & Heq & Hp).
  exists resp, w'.
  destruct Hp;
    first [ eexists; split; [exact Heq | split; [reflexivity |]]
          | exists []; split;
            [exact Heq | split; [symmetry; apply app_nil_r |]] ];
    simpl; rewrite ?String.eqb_refl;
    repeat split; try reflexivity; try discriminate.
Qed.

(** X12.  The mirror is synchronized exactly when the store has
    committed: a call [syncIssueToSheets(issue, op)] is made if and only
    if the body was valid and the store operation of the route returned
    [issue] (the created row for POST, the updated row for PUT, the row
    fetched before a successful deletion for DELETE), and [op] is then
    the operation of the route. *)
Theorem mirror_is_called_iff_the_store_committed
        {DB Sheet : Type} (storage : IStorage DB) (sheets : ISheets Sheet)
        (e : endpoint) (req : Request) (w : World DB Sheet) :
  exists cs,
    calls (snd (handler storage sheets e req w)) = calls w ++ cs
    /\ forall issue op,
         In (CSync issue op) cs <->
         committed storage req w e issue /\ operation_of e = Some op.
Proof.
  destruct (handler_path storage sheets e req w) as (resp & w' & Heq & Hp).
  rewrite Heq. cbn [snd].
  destruct Hp;
    first [ eexists; split; [reflexivity |]
          | exists []; split; [symmetry; apply app_nil_r |] ];
    intros issue' op';
    (split;
     [ intros Hin; simpl in Hin;
       repeat (destruct Hin as [Hin | Hin];
               [ first [ discriminate Hin
                       | inversion Hin; subst;
                         split; [simpl; eauto 10 | reflexivity] ] |]);
       now destruct Hin
     | intros [Hc Hop];
       simpl in Hc; try (now destruct Hc);
       repeat match goal with
              | H : exists _, _ |- _ => destruct H
              | H : _ /\ _ |- _ => destruct H
              end;
       simpl in Hop; inversion Hop; subst; agree; simpl; tauto ]).
Qed.

(** X13.  Every argument of every call comes from the request: the
    actor handed to [createIssue] and [updateIssue] is the user
    attached to the request, the data are the body as validated by the
    schema of the route, the id handed to [getIssue], [updateIssue] and
    [deleteIssue] is the path parameter (never an id of the body), the
    filters are those of the query, and the user looked up is the one
    attached to the request. *)
Theorem call_arguments_come_from_the_request
        {DB Sheet : Type} (storage : IStorage DB) (sheets : ISheets Sheet)
        (e : endpoint) (req : Request) (w : World DB Sheet) :
  exists cs,
    calls (snd (handler storage sheets e req w)) = calls w ++ cs
    /\ forall c, In c cs -> provenance req e c.
Proof.
  destruct (handler_path storage sheets e req w) as (resp & w' & Heq & Hp).
  rewrite Heq. cbn [snd].
  destruct Hp;
    first [ eexists; split; [reflexivity |]
          | exists []; split; [symmetry; apply app_nil_r |] ];
    intros c Hin; simpl in Hin;
    repeat (destruct Hin as [<- | Hin]; [simpl; auto 10 |]);
    now destruct Hin.
Qed.

(** X14.  A handler answers 404 exactly when the store reports that
    the row does not exist: [getIssue] returned nothing (GET by id and
    DELETE), [updateIssue] returned nothing (PUT), or [deleteIssue]
    returned false for a row that had just been fetched (DELETE).  The
    other handlers never answer 404. *)
Theorem not_found_iff_the_store_has_no_row
        {DB Sheet : Type} (storage : IStorage DB) (sheets : ISheets Sheet)
        (e : endpoint) (req : Request) (w : World DB Sheet) :
  exists resp w',
    handler storage sheets e req w = (Ret resp, w')
    /\ (statusCode resp = 404 <-> missing storage req w e).
Proof.
  destruct (handler_path storage sheets e req w) as (resp & w' & Heq & Hp).
  exists resp, w'. split; [exact Heq |].
  destruct Hp;
    try match goal with x : exn |- _ => destruct x end;
    (split;
     [ simpl; intros Hstatus; try discriminate Hstatus; eauto 12
     | intros Hm;
       simpl in Hm; try (now destruct Hm); try reflexivity;
       repeat match goal with
              | H : exists _, _ |- _ => destruct H
              | H : _ /\ _ |- _ => destruct H
              | H : _ \/ _ |- _ => destruct H
              end;
       agree ]).
Qed.

(** X15.  A mutating handler answers with a success status (201 for
    POST, 200 for PUT, 204 for DELETE) exactly when the store has
    committed and the synchronization of the mirror with the committed
    row has returned. *)
Theorem success_iff_store_and_mirror_returned
        {DB Sheet : Type} (storage : IStorage DB) (sheets : ISheets Sheet)
        (e : endpoint) (op : operation) (req : Request) (w : World DB Sheet) :
  operation_of e = Some op ->
  exists resp w',
    handler storage sheets e req w = (Ret resp, w')
    /\ (In (statusCode resp) [200; 201; 204] <->
        exists issue s,
          committed storage req w e issue
          /\ syncIssueToSheets sheets issue op (clock w) (sheet w)
             = (Ret tt, s)).
Proof.
  intros Hop.
  destruct (handler_path storage sheets e req w) as (resp & w' & Heq & Hp).
  exists resp, w'. split; [exact Heq |].
  destruct Hp;
    try match goal with x : exn |- _ => destruct x end;
    simpl in Hop; try discriminate Hop; inversion Hop; subst op;
    (split;
     [ simpl; intros Hstatus;
       first [ solve [exfalso; intuition discriminate]
             | do 2 eexists; split; [simpl; eauto 10 | eassumption] ]
     | intros (issue' & s' & Hc & Hy); simpl in Hc;
       repeat match goal with
              | H : exists _, _ |- _ => destruct H
              | H : _ /\ _ |- _ => destruct H
              end;
       agree; simpl; tauto ]).
Qed.

Lemma success_iff_store_and_mirror_returned_witness :
  exists resp w',
    handler Sample.storage Mirror.service DELETE_issue
            (Sample.request None Sample.id1 JNull) Sample.world0
    = (Ret resp, w')
    /\ (In (statusCode resp) [200; 201; 204] <->
        exists issue s,
          committed Sample.storage (Sample.request None Sample.id1 JNull)
                    Sample.world0 DELETE_issue issue
          /\ syncIssueToSheets Mirror.service issue delete
                               (clock Sample.world0) (sheet Sample.world0)
             = (Ret tt, s)).
Proof.
  exact (success_iff_store_and_mirror_returned
           Sample.storage Mirror.service DELETE_issue delete
           (Sample.request None Sample.id1 JNull) Sample.world0 eq_refl).
Defined.

(** X16.  When the store operation of a mutation throws, the mirror is
    not called and the error is caught: DELETE answers 500 and logs
    the error, whether the fetch or the deletion threw; POST and PUT do
    the same, except that a [ZodError] thrown by the store is answered
    as a validation failure, 400 with the issues of that error, and is
    not logged.  The store stays in the state the throwing operation
    left. *)
Theorem store_failure_is_caught
        {DB Sheet : Type} (storage : IStorage DB) (sheets : ISheets Sheet)
        (req : Request) (w : World DB Sheet) (u : string) (err : exn)
        (d : DB) :
  user req = Some u ->
  (forall data,
      parse insertIssueSchema (body req) = Ret data ->
      createIssue storage data u (clock w) (db w) = (Throw err, d) ->
      handler storage sheets POST_issues req w
      = (Ret (fst (caught "Error creating issue:"
                          "Failed to create issue" err)),
         after w d (sheet w)
               (snd (caught "Error creating issue:"
                            "Failed to create issue" err))
               [CCreateIssue data u]))
  /\ (forall data,
         parse updateIssueSchema (body req) = Ret data ->
         updateIssue storage (params_id req) data u (clock w) (db w)
         = (Throw err, d) ->
         handler storage sheets PUT_issue req w
         = (Ret (fst (caught "Error updating issue:"
                             "Failed to update issue" err)),
            after w d (sheet w)
                  (snd (caught "Error updating issue:"
                               "Failed to update issue" err))
                  [CUpdateIssue (params_id req) data u]))
  /\ (getIssue storage (params_id req) (clock w) (db w) = (Throw err, d) ->
      handler storage sheets DELETE_issue req w
      = (Ret (json 500 (message "Failed to delete issue")),
         after w d (sheet w) [("Error deleting issue:", err)]
               [CGetIssue (params_id req)]))
  /\ (forall issue d0,
         getIssue storage (params_id req) (clock w) (db w)
         = (Ret (Some issue), d0) ->
         deleteIssue storage (params_id req) (clock w) d0 = (Throw err, d) ->
         handler storage sheets DELETE_issue req w
         = (Ret (json 500 (message "Failed to delete issue")),
            after w d (sheet w) [("Error deleting issue:", err)]
                  [CGetIssue (params_id req); CDeleteIssue (params_id req)])).
Proof.
  intros Hu.
  split; [| split; [| split]]; intros;
    match goal with
    | |- handler _ _ ?e _ _ = _ =>
        destruct (handler_path storage sheets e req w)
          as (resp & w' & Heq & Hp)
    end;
    rewrite Heq; inversion Hp; subst; agree; reflexivity.
Qed.

Lemma store_failure_is_caught_witness :
  handler (Faulty.storage (ZodError [(["title"], too_big)])) Faulty.sheets
          POST_issues
          (mkRequest None (Some "u1") [] "" (JObj Sample.empty_texts))
          Faulty.world
  = (Ret (validation_error [(["title"], too_big)]),
     after Faulty.world tt tt [] [CCreateIssue Sample.empty_texts "u1"]).
Proof.
  apply (proj1 (store_failure_is_caught
                  (Faulty.storage (ZodError [(["title"], too_big)]))
                  Faulty.sheets
                  (mkRequest None (Some "u1") [] ""
                             (JObj Sample.empty_texts))
                  Faulty.world "u1" (ZodError [(["title"], too_big)]) tt
                  eq_refl) Sample.empty_texts eq_refl eq_refl).
Defined.

(** X17.  The handler of GET /api/auth/user looks up the user attached
    to the request and nothing else: the only call is [getUser] on that
    subject, and whatever it returns is answered with status 200, the
    stored user as JSON, or no body at all when the store does not know
    the subject (not a 404). *)
Theorem current_user_is_looked_up_by_subject
        {DB Sheet : Type} (storage : IStorage DB) (sheets : ISheets Sheet)
        (req : Request) (w : World DB Sheet) (u : string)
        (found : option User.t) (d : DB) :
  user req = Some u ->
  getUser storage u (clock w) (db w) = (Ret found, d) ->
  exists resp,
    handler storage sheets GET_auth_user req w
    = (Ret resp, after w d (sheet w) [] [CGetUser u])
    /\ statusCode resp = 200
    /\ payload resp = option_map user_json found
    /\ (found = None -> payload resp = None).
Proof.
  intros Hu Hg.
  destruct (handler_path storage sheets GET_auth_user req w)
    as (resp & w' & Heq & Hp).
  rewrite Heq. inversion Hp; subst; agree.
  eexists. split; [reflexivity |].
  repeat split. intros ->. reflexivity.
Qed.

Lemma current_user_is_looked_up_by_subject_witness :
  exists resp,
    handler Sample.storage Mirror.service GET_auth_user
            (mkRequest None (Some "u1") [] "" JNull) Sample.world0
    = (Ret resp,
       after Sample.world0 [Sample.crash] Sample.sheet0 [] [CGetUser "u1"])
    /\ statusCode resp = 200
    /\ payload resp = option_map user_json None
    /\ (@None User.t = None -> payload resp = None).
Proof.
  exact (current_user_is_looked_up_by_subject
           Sample.storage Mirror.service
           (mkRequest None (Some "u1") [] "" JNull) Sample.world0 "u1"
           None [Sample.crash] eq_refl eq_refl).
Defined.

(** X18.  Which handlers need a user.  The handlers of GET
    /api/auth/user, POST and PUT read [req.user.claims.sub] first: run
    on a request without a user they answer 500, log the [TypeError]
    and call nothing.  The handlers of the two public reads and of
    DELETE never read the user, the session id or (for the reads and
    DELETE) the body: they answer and act on the query and the path
    parameter alone. *)
Theorem which_handlers_need_a_user
        {DB Sheet : Type} (storage : IStorage DB) (sheets : ISheets Sheet)
        (req : Request) (w : World DB Sheet) :
  (user req = None ->
   forall e, In e [GET_auth_user; POST_issues; PUT_issue] ->
             exists label msg,
               handler storage sheets e req w
               = (Ret (json 500 (message msg)),
                  after w (db w) (sheet w) [(label, no_user)] []))
  /\ (forall e c u b,
         In e [GET_issues; GET_issue; DELETE_issue] ->
         handler storage sheets e
                 (mkRequest c u (query req) (params_id req) b) w
         = handler storage sheets e req w).
Proof.
  split.
  - intros Hu e He.
    destruct (handler_path storage sheets e req w) as (resp & w' & Heq & Hp).
    rewrite Heq. simpl in He.
    destruct He as [<- | [<- | [<- | []]]];
      inversion Hp; subst; agree; do 2 eexists; reflexivity.
  - intros e c u b He. simpl in He.
    destruct He as [<- | [<- | [<- | []]]]; reflexivity.
Qed.

Lemma which_handlers_need_a_user_witness :
  exists label msg,
    handler Sample.storage Mirror.service POST_issues
            (Sample.request (Some "s1") "" (JObj Sample.empty_texts))
            Sample.world0
    = (Ret (json 500 (message msg)),
       after Sample.world0 [Sample.crash] Sample.sheet0
             [(label, no_user)] []).
Proof.
  apply (proj1 (which_handlers_need_a_user
                  Sample.storage Mirror.service
                  (Sample.request (Some "s1") "" (JObj Sample.empty_texts))
                  Sample.world0) eq_refl POST_issues).
  simpl. tauto.
Defined.

(** X19.  The public reads answer with what the store returned, and
    only with that: a 200 from the handler of GET /api/issues carries
    one redacted object for each row [getAllIssues] returned for the
    filters of the query, in the same order (the handler itself
    filters, sorts and drops nothing); a 200 from the handler of GET
    /api/issues/:id carries the redaction of the row [getIssue]
    returned for the path parameter. *)
Theorem public_reads_answer_what_the_store_returned
        {DB Sheet : Type} (storage : IStorage DB) (sheets : ISheets Sheet)
        (req : Request) (w w' : World DB Sheet) (resp : Response) :
  statusCode resp = 200 ->
  (handler storage sheets GET_issues req w = (Ret resp, w') ->
   exists rows,
     getAllIssues storage (filters_of req) (clock w) (db w)
     = (Ret rows, db w')
     /\ payload resp = Some (JArr (map publicIssue rows)))
  /\ (handler storage sheets GET_issue req w = (Ret resp, w') ->
      exists row,
        getIssue storage (params_id req) (clock w) (db w)
        = (Ret (Some row), db w')
        /\ payload resp = Some (publicIssue row)).
Proof.
  intros H200. split; intros Hserve;
    match goal with
    | H : handler _ _ ?e _ _ = _ |- _ =>
        destruct (handler_path storage sheets e req w)
          as (resp0 & w0 & Heq & Hp)
    end;
    rewrite Heq in Hserve; inversion Hserve; subst resp0 w0;
    inversion Hp; subst; try discriminate H200;
    eexists; (split; [eassumption | reflexivity]).
Qed.

Lemma public_reads_answer_what_the_store_returned_witness :
  exists rows,
    getAllIssues Sample.storage
                 (filters_of (Sample.request None "" JNull))
                 (clock Sample.world0) (db Sample.world0)
    = (Ret rows, [Sample.crash])
    /\ Some (JArr [publicIssue Sample.crash])
       = Some (JArr (map publicIssue rows)).
Proof.
  exact (proj1 (public_reads_answer_what_the_store_returned
                  Sample.storage Mirror.service
                  (Sample.request None "" JNull) Sample.world0
                  (after Sample.world0 [Sample.crash] Sample.sheet0 []
                         [CGetAllIssues (mkFilters None None None)])
                  (json 200 (JArr [publicIssue Sample.crash]))
                  eq_refl) eq_refl).
Defined.

(** X20.  The public form of an issue is its full form without the two
    actor fields, and nothing else is hidden or changed: the object the
    public routes build is the object [res.json(issue)] sends on POST
    and PUT with [createdBy] and [updatedBy] removed, the other nine
    properties in the same order with the same values. *)
Theorem public_issue_is_the_full_issue_without_the_actors
        (issue : Issue.t) :
  exists props,
    issue_json issue = JObj props
    /\ publicIssue issue = JObj (without ["createdBy"; "updatedBy"] props)
    /\ keys props
       = ["id"; "title"; "type"; "description"; "impact"; "status";
          "expectedFixDate"; "createdBy"; "updatedBy"; "createdAt";
          "updatedAt"]
    /\ forall k, In k whitelist ->
                 lookup k (without ["createdBy"; "updatedBy"] props)
                 = lookup k props.
Proof.
  eexists. split; [reflexivity |]. repeat split.
  intros k Hk. apply lookup_without. simpl in Hk.
  repeat (destruct Hk as [<- | Hk]; [reflexivity |]). destruct Hk.
Qed.
